(** * Mercia: the client registry API (dbcenter.py, app.py)

  A shallow embedding of the persistence adapter [dbcenter.py] and of the
  HTTP handlers of [app.py].  Module state ([_supabase], [_pool]) and the
  two backends live in one explicit [world]; every function of the source
  is a computation in a state-and-exception monad over that world. *)

From Stdlib Require Import ZArith Lia List String Ascii Bool Sorted.
From stdpp Require Import base option list gmap strings pretty.

Local Open Scope string_scope.
Local Open Scope list_scope.
Local Open Scope Z_scope.

(** ** Python values, exceptions and truthiness *)

Module Py.

(** The scalars that flow through the adapter: [None], integers, text and
    [datetime] objects (a point in time, in microseconds). *)
Inductive value : Type :=
| VNone
| VInt (n : Z)
| VStr (s : string)
| VTime (t : Z).

#[global] Instance value_eq_dec : EqDecision value.
Proof. solve_decision. Defined.

(** A row as the handlers see it: a [dict] from column names to scalars. *)
Abbreviation dict := (gmap string value).

(** [d.get(k)]: the entry, or [None] when the key is absent. *)
Definition get (d : dict) (k : string) : value := default VNone (d !! k).

Inductive exn : Type :=
| RuntimeError (msg : string)
| AttributeError (msg : string)
| KeyError (msg : string)
| IndexError (msg : string)
| TypeError (msg : string)
| PoolError (msg : string)        (* psycopg2.pool.PoolError *)
| DatabaseError (msg : string)    (* psycopg2.Error *)
| APIError (msg : string)         (* raised by the hosted client *)
| HTTPException (status_code : Z) (detail : string).

#[global] Instance exn_eq_dec : EqDecision exn.
Proof. solve_decision. Defined.

(** [str(e)] of an exception built from one message. *)
Definition message (e : exn) : string :=
  match e with
  | RuntimeError m | AttributeError m | KeyError m | IndexError m
  | TypeError m | PoolError m | DatabaseError m | APIError m => m
  | HTTPException _ d => d
  end.

(** Truthiness, as [if x], [not x] and [x or y] test it. *)
Definition truthy (v : value) : bool :=
  match v with
  | VNone => false
  | VInt n => negb (Z.eqb n 0)
  | VStr s => negb (String.eqb s EmptyString)
  | VTime _ => true
  end.

Definition truthy_str (o : option string) : bool :=
  match o with
  | Some s => negb (String.eqb s EmptyString)
  | None => false
  end.

(** A [data] payload is [None] or a list of rows; the empty list is falsy. *)
Definition truthy_data (d : option (list dict)) : bool :=
  match d with
  | Some (_ :: _) => true
  | _ => false
  end.

Definition of_opt_str (o : option string) : value :=
  match o with
  | Some s => VStr s
  | None => VNone
  end.

End Py.
Export Py.

(** ** Text: [str.strip] and substring search *)

Section Strip.

(** Which characters count as white space is fixed by the validation
    library; the development is parametric in it. *)
Variable is_space : ascii -> bool.

Fixpoint lstrip (s : string) : string :=
  match s with
  | EmptyString => EmptyString
  | String c s' => if is_space c then lstrip s' else s
  end.

Fixpoint rstrip (s : string) : string :=
  match s with
  | EmptyString => EmptyString
  | String c s' =>
      match rstrip s' with
      | EmptyString => if is_space c then EmptyString else String c EmptyString
      | r => String c r
      end
  end.

Definition strip (s : string) : string := rstrip (lstrip s).

Fixpoint all_space (s : string) : bool :=
  match s with
  | EmptyString => true
  | String c s' => is_space c && all_space s'
  end.

Definition first_char (s : string) : option ascii :=
  match s with
  | EmptyString => None
  | String c _ => Some c
  end.

Fixpoint last_char (s : string) : option ascii :=
  match s with
  | EmptyString => None
  | String c EmptyString => Some c
  | String _ s' => last_char s'
  end.

(** No white space at either end. *)
Definition trimmed (s : string) : Prop :=
  (forall c, first_char s = Some c -> is_space c = false) /\
  (forall c, last_char s = Some c -> is_space c = false).

End Strip.

(** [needle in hay]. *)
Fixpoint is_infix (needle hay : string) : bool :=
  String.prefix needle hay ||
  match hay with
  | EmptyString => false
  | String _ hay' => is_infix needle hay'
  end.

(** ** The connection pool of the database driver

    [psycopg2.pool.SimpleConnectionPool] is not part of the repository; this
    is the part of its documented behaviour that [dbcenter] relies on.  A
    connection is named by a number.  [idle] is the driver's list of pooled
    connections, most recently returned first (the driver appends and pops
    at the same end); [used] are the connections checked out. *)

Module Pool.

Record t : Type := mk {
  minconn : nat;
  maxconn : nat;
  idle : list nat;
  used : list nat;
  opened : nat  (* connections opened so far; names the next one *)
}.

#[global] Instance t_eq_dec : EqDecision t.
Proof. solve_decision. Defined.

Definition could_not_connect : exn :=
  DatabaseError "could not connect to server".

(** The constructor opens [minconn] connections at once, so it needs the
    server. *)
Definition SimpleConnectionPool (minconn maxconn : nat) (server_up : bool)
  : exn + t :=
  if (0 <? minconn)%nat && negb server_up then inl could_not_connect
  else inr (mk minconn maxconn (rev (seq 0 minconn)) [] minconn).

Definition getconn (server_up : bool) (p : t) : exn + (nat * t) :=
  match idle p with
  | c :: rest =>
      inr (c, mk (minconn p) (maxconn p) rest (c :: used p) (opened p))
  | [] =>
      if (length (used p) =? maxconn p)%nat
      then inl (PoolError "connection pool exhausted")
      else if server_up
      then inr (opened p,
                mk (minconn p) (maxconn p) [] (opened p :: used p)
                   (S (opened p)))
      else inl could_not_connect
  end.

Fixpoint remove_first (c : nat) (l : list nat) : list nat :=
  match l with
  | [] => []
  | x :: l' => if (x =? c)%nat then l' else x :: remove_first c l'
  end.

(** A returned connection is kept while fewer than [minconn] are idle and
    closed otherwise; either way it stops being checked out. *)
Definition putconn (c : nat) (p : t) : exn + t :=
  if existsb (Nat.eqb c) (used p)
  then inr (mk (minconn p) (maxconn p)
               (if (length (idle p) <? minconn p)%nat
                then c :: idle p else idle p)
               (remove_first c (used p)) (opened p))
  else inl (PoolError "trying to put unkeyed connection").

End Pool.

(** ** The relational store behind both backends

    Both backends keep the [clients] table in a relational database with the
    schema of [create_clients_table]; this module gives the three statements
    the adapter issues their meaning.  [created_at] is nullable in that
    schema, and a descending sort puts the rows without one first. *)

Module Pg.

Record row : Type := mk_row {
  row_id : Z;
  row_name : string;
  row_address : option string;
  row_phone : option string;
  row_created_at : option Z
}.

#[global] Instance row_eq_dec : EqDecision row.
Proof. solve_decision. Defined.

Record t : Type := mk {
  up : bool;                    (* the server answers *)
  clients : option (list row);  (* [None]: the table does not exist *)
  serial : Z;                   (* next value of the [id] sequence *)
  now : Z                       (* the server's clock *)
}.

Definition server_down : string := "server closed the connection".
Definition no_table : string := "relation clients does not exist".
Definition negative_limit : string := "LIMIT must not be negative".

(** [before a b]: [a] may precede [b] under ORDER BY created_at DESC. *)
Definition before (a b : row) : bool :=
  match row_created_at a, row_created_at b with
  | None, _ => true
  | Some _, None => false
  | Some x, Some y => y <=? x
  end.


Fixpoint insert_desc (r : row) (l : list row) : list row :=
  match l with
  | [] => [r]
  | x :: l' => if before r x then r :: l else x :: insert_desc r l'
  end.

Definition order_desc (l : list row) : list row := foldr insert_desc [] l.

(** CREATE TABLE IF NOT EXISTS clients (...) *)
Definition create_table (db : t) : string + t :=
  if up db
  then inr (mk true (Some (default [] (clients db))) (serial db) (now db))
  else inl server_down.

(** INSERT INTO clients (name, address, phone) VALUES (...)
    RETURNING id, created_at *)
Definition insert_returning (name : string) (address phone : option string)
    (db : t) : string + (Z * Z * t) :=
  if up db then
    match clients db with
    | None => inl no_table
    | Some rows =>
        let r := mk_row (serial db) name address phone (Some (now db)) in
        inr (serial db, now db,
             mk true (Some (rows ++ [r])) (serial db + 1) (now db))
    end
  else inl server_down.

(** SELECT id FROM clients LIMIT limit, as the hosted table check asks it;
    no order is requested and the rows come as they are stored. *)
Definition select_any (limit : Z) (db : t) : string + list row :=
  if up db then
    match clients db with
    | None => inl no_table
    | Some rows =>
        if limit <? 0 then inl negative_limit
        else inr (take (Z.to_nat limit) rows)
    end
  else inl server_down.

(** SELECT ... FROM clients ORDER BY created_at DESC LIMIT limit *)
Definition select_recent (limit : Z) (db : t) : string + list row :=
  if up db then
    match clients db with
    | None => inl no_table
    | Some rows =>
        if limit <? 0 then inl negative_limit
        else inr (take (Z.to_nat limit) (order_desc rows))
    end
  else inl server_down.

End Pg.

(** ** The hosted table service

    The [supabase] client is not part of the repository either.  What
    [execute()] hands back is, in the words of [insert_client], an object
    with [.data] or a [dict]; which of the two is a property of the client
    library in use.  A healthy service answers from its table; [fault] lets
    it raise instead, or answer with a given [data] and [error]. *)

Module Supabase.

Inductive shape : Type :=
| ObjectShape  (* attributes [data] and [error]; no [get] method *)
| DictShape.   (* keys [data] and [error]; no such attributes *)

Record response : Type := mk_response {
  res_shape : shape;
  res_data : option (list dict);
  res_error : value
}.

(** A failing service raises, or answers with the given rows of the table's
    schema (or no [data] at all) and the given [error]. *)
Inductive fault : Type :=
| Raises (msg : string)
| Replies (data : option (list Pg.row)) (error : value).

Record t : Type := mk {
  db : Pg.t;
  reply_shape : shape;
  failing : option fault
}.

Inductive request : Type :=
| SelectIdLimit1
    (* table('clients').select('id').limit(1) *)
| Insert (name : string) (address phone : option string)
    (* table('clients').insert({name, address, phone}) *)
| SelectAllRecent (limit : Z).
    (* table('clients').select('*').order('created_at', desc=True).limit(limit) *)

Section Json.

(** How the service writes a timestamp in its JSON answer. *)
Variable iso_datetime : Z -> string.

Definition json_row (r : Pg.row) : dict :=
  {[ "id" := VInt (Pg.row_id r);
     "name" := VStr (Pg.row_name r);
     "address" := of_opt_str (Pg.row_address r);
     "phone" := of_opt_str (Pg.row_phone r);
     "created_at" := of_opt_str (option_map iso_datetime (Pg.row_created_at r)) ]}.

Definition json_id (r : Pg.row) : dict := {[ "id" := VInt (Pg.row_id r) ]}.

Definition answer (s : t) (rows : list dict) : exn + response :=
  inr (mk_response (reply_shape s) (Some rows) VNone).

Definition execute (req : request) (s : t) : (exn + response) * t :=
  match failing s with
  | Some (Raises msg) => (inl (APIError msg), s)
  | Some (Replies d e) =>
      (inr (mk_response (reply_shape s) (option_map (map json_row) d) e), s)
  | None =>
      match req with
      | SelectIdLimit1 =>
          match Pg.select_any 1 (db s) with
          | inl msg => (inl (APIError msg), s)
          | inr rows => (answer s (map json_id rows), s)
          end
      | Insert name address phone =>
          match Pg.insert_returning name address phone (db s) with
          | inl msg => (inl (APIError msg), s)
          | inr (id, ts, db') =>
              (answer s [json_row (Pg.mk_row id name address phone (Some ts))],
               mk db' (reply_shape s) None)
          end
      | SelectAllRecent limit =>
          match Pg.select_recent limit (db s) with
          | inl msg => (inl (APIError msg), s)
          | inr rows => (answer s (map json_row rows), s)
          end
      end
  end.

End Json.

End Supabase.

(** ** The process and its surroundings *)

(** The adapter operations and the pool traffic, recorded as they happen.
    The log is instrumentation: no function of the source reads it. *)
Inductive event : Type :=
| Called (operation : string)
| Getconn (c : nat)
| Putconn (c : nat).

#[global] Instance event_eq_dec : EqDecision event.
Proof. solve_decision. Defined.

Record world : Type := mk_world {
  (* configuration read from the environment at import *)
  SUPABASE_URL : option string;
  SUPABASE_KEY : option string;
  (* module state of dbcenter *)
  _supabase : option (string * string);
  _pool : option Pool.t;
  (* what the process runs against *)
  supabase_installed : bool;
  psycopg2_installed : bool;
  postgres : Pg.t;
  hosted : Supabase.t;
  log : list event
}.

Definition set_supabase (sb : option (string * string)) (w : world) : world :=
  mk_world (SUPABASE_URL w) (SUPABASE_KEY w) sb (_pool w)
    (supabase_installed w) (psycopg2_installed w) (postgres w) (hosted w)
    (log w).

Definition set_pool (p : option Pool.t) (w : world) : world :=
  mk_world (SUPABASE_URL w) (SUPABASE_KEY w) (_supabase w) p
    (supabase_installed w) (psycopg2_installed w) (postgres w) (hosted w)
    (log w).

Definition set_postgres (db : Pg.t) (w : world) : world :=
  mk_world (SUPABASE_URL w) (SUPABASE_KEY w) (_supabase w) (_pool w)
    (supabase_installed w) (psycopg2_installed w) db (hosted w) (log w).

Definition set_hosted (s : Supabase.t) (w : world) : world :=
  mk_world (SUPABASE_URL w) (SUPABASE_KEY w) (_supabase w) (_pool w)
    (supabase_installed w) (psycopg2_installed w) (postgres w) s (log w).

Definition record (e : event) (w : world) : world :=
  mk_world (SUPABASE_URL w) (SUPABASE_KEY w) (_supabase w) (_pool w)
    (supabase_installed w) (psycopg2_installed w) (postgres w) (hosted w)
    (log w ++ [e]).

(** [if SUPABASE_URL and SUPABASE_KEY] *)
Definition hosted_mode (w : world) : bool :=
  truthy_str (SUPABASE_URL w) && truthy_str (SUPABASE_KEY w).

(** Connections checked out of the pool and not yet given back. *)
Definition outstanding (w : world) : nat :=
  match _pool w with
  | Some p => length (Pool.used p)
  | None => 0%nat
  end.

(** ** Computations: state passing with exceptions *)

Definition M (A : Type) : Type := world -> (exn + A) * world.

Definition ret {A} (a : A) : M A := fun w => (inr a, w).

Definition raise {A} (e : exn) : M A := fun w => (inl e, w).

Definition bind {A B} (m : M A) (k : A -> M B) : M B :=
  fun w =>
    match m w with
    | (inl e, w') => (inl e, w')
    | (inr a, w') => k a w'
    end.

Notation "'do' x <- m ; k" := (bind m (fun x => k))
  (at level 10, x name, m at level 100, k at level 200).
Notation "'run' m ; k" := (bind m (fun _ => k))
  (at level 10, m at level 100, k at level 200).

Definition read {A} (f : world -> A) : M A := fun w => (inr (f w), w).

Definition modify (f : world -> world) : M unit := fun w => (inr tt, f w).

Definition lift {A} (r : exn + A) : M A := fun w => (r, w).

(** [try: body except Exception as e: handler(e)] *)
Definition try_except {A} (body : M A) (handler : exn -> M A) : M A :=
  fun w =>
    match body w with
    | (inl e, w') => handler e w'
    | r => r
    end.

(** [try: body finally: cleanup]: the cleanup runs on both exits, and an
    exception of its own replaces the outcome of the body. *)
Definition try_finally {A} (body : M A) (cleanup : M unit) : M A :=
  fun w =>
    match body w with
    | (r, w') =>
        match cleanup w' with
        | (inl e, w'') => (inl e, w'')
        | (inr _, w'') => (r, w'')
        end
    end.

(** [x or y], with [y] evaluated only when [x] is falsy. *)
Definition py_or {A} (truth : A -> bool) (x : A) (y : M A) : M A :=
  if truth x then ret x else y.

(** ** dbcenter.py *)

Module dbcenter.

Section Adapter.

(** [str()] of a [datetime], and the service's JSON form of a timestamp. *)
Variable str_datetime : Z -> string.
Variable iso_datetime : Z -> string.

(** [str(v)] *)
Definition str (v : value) : string :=
  match v with
  | VNone => "None"
  | VInt n => pretty n
  | VStr s => s
  | VTime t => str_datetime t
  end.

(** [create_client(url, key)] is taken to succeed, and the client it builds
    is named by its two arguments.  The two messages below stand for the
    source's, which quote the package name and carry accents. *)
Definition init_supabase : M (string * string) :=
  do sb <- read _supabase;
  match sb with
  | Some client => ret client
  | None =>
      do installed <- read supabase_installed;
      if negb installed
      then raise (RuntimeError
             "Pacote supabase nao esta instalado. Execute: pip install supabase")
      else
        do url <- read SUPABASE_URL;
        do key <- read SUPABASE_KEY;
        if negb (truthy_str url) || negb (truthy_str key)
        then raise (RuntimeError
               "SUPABASE_URL e SUPABASE_KEY devem estar configurados no .env")
        else
          let client := (default EmptyString url, default EmptyString key) in
          run modify (set_supabase (Some client));
          ret client
  end.

(** [def init_pool(minconn=1, maxconn=5)] *)
Definition init_pool (minconn maxconn : option nat) : M unit :=
  let minconn := default 1%nat minconn in
  let maxconn := default 5%nat maxconn in
  do pool <- read _pool;
  match pool with
  | Some _ => ret tt
  | None =>
      do installed <- read psycopg2_installed;
      if negb installed
      then raise (RuntimeError
             "Pacote psycopg2-binary nao esta instalado. Execute: pip install psycopg2-binary")
      else
        do db <- read postgres;
        do p <- lift (Pool.SimpleConnectionPool minconn maxconn (Pg.up db));
        modify (set_pool (Some p))
  end.

Definition get_conn : M nat :=
  do pool <- read _pool;
  run (if pool is None then init_pool None None else ret tt);
  do pool <- read _pool;
  match pool with
  | None => raise (AttributeError "'NoneType' object has no attribute 'getconn'")
  | Some p =>
      do db <- read postgres;
      do r <- lift (Pool.getconn (Pg.up db) p);
      run modify (set_pool (Some r.2));
      run modify (record (Getconn r.1));
      ret r.1
  end.

Definition put_conn (conn : nat) : M unit :=
  do pool <- read _pool;
  match pool with
  | Some p =>
      do p' <- lift (Pool.putconn conn p);
      run modify (set_pool (Some p'));
      modify (record (Putconn conn))
  | None => ret tt
  end.

(** [closeall()] closes every connection; the pool object is then dropped. *)
Definition close_pool : M unit :=
  do pool <- read _pool;
  match pool with
  | Some _ => modify (set_pool None)
  | None => ret tt
  end.

(** A statement on a checked-out connection, committed when it succeeds. *)
Definition on_postgres {A} (stmt : Pg.t -> string + (A * Pg.t)) : M A :=
  do db <- read postgres;
  match stmt db with
  | inl msg => raise (DatabaseError msg)
  | inr (a, db') => run modify (set_postgres db'); ret a
  end.

(** [sb.table('clients')...execute()] *)
Definition execute (req : Supabase.request) : M Supabase.response :=
  do s <- read hosted;
  let r := Supabase.execute iso_datetime req s in
  run modify (set_hosted r.2);
  lift r.1.

(** The message names the class of the reply, which belongs to the client
    library; it is left out here. *)
Definition no_get : exn := AttributeError "object has no attribute 'get'".

(** [getattr(res, 'data', None)] *)
Definition getattr_data (res : Supabase.response) : option (list dict) :=
  match Supabase.res_shape res with
  | Supabase.ObjectShape => Supabase.res_data res
  | Supabase.DictShape => None
  end.

(** [res.get('data')] *)
Definition get_data (res : Supabase.response) : M (option (list dict)) :=
  match Supabase.res_shape res with
  | Supabase.ObjectShape => raise no_get
  | Supabase.DictShape => ret (Supabase.res_data res)
  end.

(** [getattr(res, 'error', None)] *)
Definition getattr_error (res : Supabase.response) : value :=
  match Supabase.res_shape res with
  | Supabase.ObjectShape => Supabase.res_error res
  | Supabase.DictShape => VNone
  end.

(** [res.get('error')] *)
Definition get_error (res : Supabase.response) : M value :=
  match Supabase.res_shape res with
  | Supabase.ObjectShape => raise no_get
  | Supabase.DictShape => ret (Supabase.res_error res)
  end.

(** The shared unwrapping of [insert_client] and [get_clients]:
    [data = None; try: data = getattr(res, 'data', None) or res.get('data')
     except Exception: data = None] *)
Definition unwrap_data (res : Supabase.response) : M (option (list dict)) :=
  try_except (py_or truthy_data (getattr_data res) (get_data res))
             (fun _ => ret None).

(** [getattr(res, 'error', None) or res.get('error')] *)
Definition unwrap_error (res : Supabase.response) : M value :=
  py_or truthy (getattr_error res) (get_error res).

(** [data[0]] *)
Definition first_row (data : option (list dict)) : M dict :=
  match data with
  | Some (row :: _) => ret row
  | Some [] => raise (IndexError "list index out of range")
  | None => raise (TypeError "'NoneType' object is not subscriptable")
  end.

Definition create_clients_table : M bool :=
  run modify (record (Called "create_clients_table"));
  do hosted <- read hosted_mode;
  if hosted then
    do sb <- init_supabase;
    try_except
      (do res <- execute Supabase.SelectIdLimit1; ret true)
      (fun _ => ret false)
  else
    do conn <- get_conn;
    try_finally
      (run on_postgres (fun db =>
             match Pg.create_table db with
             | inl msg => inl msg
             | inr db' => inr (tt, db')
             end);
       ret true)
      (put_conn conn).

Definition insert_client (name : string) (address phone : option string)
  : M dict :=
  run modify (record (Called "insert_client"));
  do hosted <- read hosted_mode;
  if hosted then
    do sb <- init_supabase;
    do res <- execute (Supabase.Insert name address phone);
    do data <- unwrap_data res;
    if negb (truthy_data data) then
      do err <- unwrap_error res;
      raise (RuntimeError ("Falha ao inserir no Supabase: " +:+ str err))
    else
      do row <- first_row data;
      ret {[ "id" := get row "id"; "created_at" := get row "created_at" ]}
  else
    do conn <- get_conn;
    try_finally
      (do row <- on_postgres (Pg.insert_returning name address phone);
       ret {[ "id" := VInt row.1; "created_at" := VTime row.2 ]})
      (put_conn conn).

(** One fetched tuple [r] as the dictionary built in [get_clients]. *)
Definition row_dict (r : Pg.row) : dict :=
  {[ "id" := VInt (Pg.row_id r);
     "name" := VStr (Pg.row_name r);
     "address" := of_opt_str (Pg.row_address r);
     "phone" := of_opt_str (Pg.row_phone r);
     "created_at" := match Pg.row_created_at r with
                     | Some t => VTime t
                     | None => VNone
                     end ]}.

(** [def get_clients(limit=100)] *)
Definition get_clients (limit : option Z) : M (list dict) :=
  let limit := default 100 limit in
  run modify (record (Called "get_clients"));
  do hosted <- read hosted_mode;
  if hosted then
    do sb <- init_supabase;
    do res <- execute (Supabase.SelectAllRecent limit);
    do data <- unwrap_data res;
    match data with
    | None =>
        do err <- unwrap_error res;
        raise (RuntimeError
                 ("Falha ao listar clientes no Supabase: " +:+ str err))
    | Some rows => ret rows
    end
  else
    do conn <- get_conn;
    try_finally
      (do rows <- on_postgres (fun db =>
                    match Pg.select_recent limit db with
                    | inl msg => inl msg
                    | inr rows => inr (rows, db)
                    end);
       ret (map row_dict rows))
      (put_conn conn).

End Adapter.

End dbcenter.

(** ** app.py *)

Module app.

Section Service.

Variable is_space : ascii -> bool.
Variable str_datetime : Z -> string.
Variable iso_datetime : Z -> string.

(** [constr(strip_whitespace=..., min_length=...)]: strip first, then check
    the length of what is left. *)
Definition constr (strip_whitespace : bool) (min_length : nat) (s : string)
  : option string :=
  let s := if strip_whitespace then strip is_space s else s in
  if (min_length <=? String.length s)%nat then Some s else None.

(** [Optional[constr(...)] = None] *)
Definition optional_constr (strip_whitespace : bool) (min_length : nat)
    (o : option string) : option (option string) :=
  match o with
  | None => Some None
  | Some s => Some <$> constr strip_whitespace min_length s
  end.

Record ClientIn : Type := mk_ClientIn {
  name : string;
  address : option string;
  phone : option string
}.

(** [class ClientOut(ClientIn)] *)
Record ClientOut : Type := mk_ClientOut {
  base : ClientIn;
  id : Z;
  created_at : string
}.

(** The JSON object of a create request: each field is text, or absent. *)
Record body : Type := mk_body {
  body_name : option string;
  body_address : option string;
  body_phone : option string
}.

(** Validation of a request body against [ClientIn]. *)
Definition parse_ClientIn (b : body) : option ClientIn :=
  n ← body_name b;
  n' ← constr true 1 n;
  a ← optional_constr true 0 (body_address b);
  p ← optional_constr true 0 (body_phone b);
  Some (mk_ClientIn n' a p).

Definition as_text (v : value) : option string :=
  match v with
  | VStr s => Some s
  | _ => None
  end.

Definition as_optional_text (v : value) : option (option string) :=
  match v with
  | VNone => Some None
  | VStr s => Some (Some s)
  | _ => None
  end.

Definition as_int (v : value) : option Z :=
  match v with
  | VInt n => Some n
  | _ => None
  end.

(** Validation of what a handler returns against [ClientOut]: [id] must be
    an integer and [created_at] text; the inherited fields are validated as
    in [ClientIn]. *)
Definition parse_ClientOut (d : dict) : option ClientOut :=
  n ← as_text (get d "name");
  n' ← constr true 1 n;
  a ← as_optional_text (get d "address");
  a' ← optional_constr true 0 a;
  p ← as_optional_text (get d "phone");
  p' ← optional_constr true 0 p;
  i ← as_int (get d "id");
  c ← as_text (get d "created_at");
  Some (mk_ClientOut (mk_ClientIn n' a' p') i c).

(** [payload.dict()] *)
Definition payload_dict (payload : ClientIn) : dict :=
  {[ "name" := VStr (name payload);
     "address" := of_opt_str (address payload);
     "phone" := of_opt_str (phone payload) ]}.

(** [d[k]] *)
Definition getitem (d : dict) (k : string) : M value :=
  match d !! k with
  | Some v => ret v
  | None => raise (KeyError ("'" +:+ k +:+ "'"))
  end.

Definition startup_event : M unit :=
  run dbcenter.init_pool None None;
  run dbcenter.create_clients_table iso_datetime;
  ret tt.

Definition shutdown_event : M unit := dbcenter.close_pool.

(** [{"id": ..., "created_at": str(...), **payload.dict()}]: the entries of
    [payload.dict()] come last and would win on a shared key. *)
Definition create_client (payload : ClientIn) : M dict :=
  try_except
    (do inserted <- dbcenter.insert_client str_datetime iso_datetime
                      (name payload) (address payload) (phone payload);
     do i <- getitem inserted "id";
     do c <- getitem inserted "created_at";
     ret (payload_dict payload ∪
          {[ "id" := i; "created_at" := VStr (dbcenter.str str_datetime c) ]}))
    (fun e => raise (HTTPException 500 (message e))).

(** [def list_clients(limit: int = 100)] *)
Definition list_clients (limit : option Z) : M (list dict) :=
  let limit := default 100 limit in
  try_except
    (do rows <- dbcenter.get_clients str_datetime iso_datetime (Some limit);
     ret (map (fun r =>
                 {[ "id" := get r "id";
                    "name" := get r "name";
                    "address" := get r "address";
                    "phone" := get r "phone";
                    "created_at" :=
                      match get r "created_at" with
                      | VNone => VNone
                      | c => VStr (dbcenter.str str_datetime c)
                      end ]} : dict)
              rows))
    (fun e => raise (HTTPException 500 (message e))).

(** *** The routes

    What the framework does around a handler: the body of a request is
    validated before the handler runs (422 otherwise), an [HTTPException]
    becomes a response with its status and detail, and the value returned is
    validated against [response_model]; when that fails the request ends in
    a 500. *)

Inductive http (A : Type) : Type :=
| Http200 (content : A)
| HttpError (status : Z) (detail : string).

Arguments Http200 {A} content.
Arguments HttpError {A} status detail.

Definition respond {A B} (handler : M A) (response_model : A -> option B)
  : world -> http B * world :=
  fun w =>
    match handler w with
    | (inr a, w') =>
        match response_model a with
        | Some b => (Http200 b, w')
        | None => (HttpError 500 "Internal Server Error", w')
        end
    | (inl (HTTPException status detail), w') => (HttpError status detail, w')
    | (inl _, w') => (HttpError 500 "Internal Server Error", w')
    end.

(** [@app.post("/api/clients", response_model=ClientOut)] *)
Definition post_clients (b : body) : world -> http ClientOut * world :=
  fun w =>
    match parse_ClientIn b with
    | None => (HttpError 422 "Unprocessable Entity", w)
    | Some payload => respond (create_client payload) parse_ClientOut w
    end.

(** [@app.get("/api/clients", response_model=List[ClientOut])] *)
Definition get_clients_route (limit : option Z)
  : world -> http (list ClientOut) * world :=
  respond (list_clients limit) (mapM parse_ClientOut).

End Service.

Arguments Http200 {A} content.
Arguments HttpError {A} status detail.

End app.

(** ** Vocabulary of the statements *)

(** Fields that no pool operation, statement or service request touches. *)
Definition same_config (w w' : world) : Prop :=
  SUPABASE_URL w' = SUPABASE_URL w /\ SUPABASE_KEY w' = SUPABASE_KEY w /\
  _supabase w' = _supabase w /\
  supabase_installed w' = supabase_installed w /\
  psycopg2_installed w' = psycopg2_installed w.

Definition used_of (w : world) : list nat :=
  match _pool w with
  | Some p => Pool.used p
  | None => []
  end.

(** The pool's bound; [get_conn] builds an absent pool with the default 5. *)
Definition maxconn_of (w : world) : nat :=
  match _pool w with
  | Some p => Pool.maxconn p
  | None => 5%nat
  end.

(** The table of the backend in use. *)
Definition backend (w : world) : Pg.t :=
  if hosted_mode w then Supabase.db (hosted w) else postgres w.

Definition stored (w : world) : list Pg.row := default [] (Pg.clients (backend w)).




(** The backend in use can serve a request: in hosted mode the client can
    be built and the service is healthy; in direct mode the server answers,
    the driver is there when the pool still has to be built, and the pool is
    not exhausted. *)
Definition ready (w : world) : Prop :=
  Pg.up (backend w) = true /\ is_Some (Pg.clients (backend w)) /\
  if hosted_mode w
  then (is_Some (_supabase w) \/ supabase_installed w = true) /\
       Supabase.failing (hosted w) = None
  else (outstanding w < maxconn_of w)%nat /\
       (_pool w = None -> psycopg2_installed w = true).

(** What one use of the adapter leaves in the log and in the pool: the
    checkout count is back where it was, and the pool traffic is either
    nothing at all, in which case the operation raised, or one [Getconn]
    followed by one [Putconn] of the same connection. *)
Definition scoped_use {A} (operation : string) (w : world)
    (res : (exn + A) * world) : Prop :=
  outstanding res.2 = outstanding w /\
  ((log res.2 = log w ++ [Called operation] /\ exists e, res.1 = inl e) \/
   exists c, log res.2 = log w ++ [Called operation; Getconn c; Putconn c]).

(** In hosted mode an operation leaves behind the world it found, with the
    call recorded, the client cached or not, and the service in the state
    its one request left it in. *)
Definition hosted_trace (operation : string) (w w' : world) : Prop :=
  exists sb s,
    w' = set_hosted s (set_supabase sb (record (Called operation) w)).

(** The direct side of the process: the pool and the database server. *)
Definition direct_side_kept (w w' : world) : Prop :=
  _pool w' = _pool w /\ postgres w' = postgres w.

(** The hosted side: the cached client and the service. *)
Definition hosted_side_kept (w w' : world) : Prop :=
  _supabase w' = _supabase w /\ hosted w' = hosted w.

(** A direct connection can be had: the server answers, the pool is not
    exhausted, and the driver is there when the pool still has to be
    built. *)
Definition can_connect (w : world) : Prop :=
  Pg.up (postgres w) = true /\
  (outstanding w < maxconn_of w)%nat /\
  (_pool w = None -> psycopg2_installed w = true).

(** The hosted client is cached or can be built. *)
Definition client_at_hand (w : world) : Prop :=
  is_Some (_supabase w) \/ supabase_installed w = true.



(** The pool holds no more connections, idle and checked out together,
    than its bound allows. *)
Definition pool_sound (w : world) : Prop :=
  match _pool w with
  | Some p =>
      (length (Pool.idle p) + length (Pool.used p) <= Pool.maxconn p)%nat
  | None => True
  end.

(** Three sentences of the specification that the code does not bear out,
    as they are worded. *)


(** "raises an error whose message carries [...] the text unknown when the
    service reports no error". *)
Definition reports_unknown (str_datetime iso_datetime : Z -> string)
    (name : string) (address phone : option string) (w : world) : Prop :=
  exists e w',
    dbcenter.insert_client str_datetime iso_datetime name address phone w
      = (inl e, w') /\
    is_infix "unknown" (message e) = true.

(** "after close_pool tears it down no operation re-creates a pool". *)
Definition stays_closed (str_datetime iso_datetime : Z -> string)
    (w : world) : Prop :=
  let closed := (dbcenter.close_pool w).2 in
  _pool (dbcenter.get_clients str_datetime iso_datetime None closed).2 = None.

(** ** Sample inputs *)

Module sample.

(** White space of [str.isspace] among the ASCII characters. *)
Definition is_space (c : ascii) : bool :=
  let n := nat_of_ascii c in
  ((9 <=? n) && (n <=? 13) || (28 <=? n) && (n <=? 32))%nat.

(** Stand-ins for the two renderings of a timestamp. *)
Definition str_datetime (t : Z) : string := "t=" +:+ pretty t.
Definition iso_datetime (t : Z) : string := "T" +:+ pretty t.

Definition empty_table : Pg.t := Pg.mk true (Some []) 1 1000.

Definition no_table : Pg.t := Pg.mk true None 1 1000.

(** Three clients created at times 10 < 20 < 30. *)
Definition three_clients : Pg.t :=
  Pg.mk true
    (Some [Pg.mk_row 1 "Ana" (Some "Rua 1") None (Some 10);
           Pg.mk_row 2 "Bia" None (Some "555") (Some 20);
           Pg.mk_row 3 "Caio" None None (Some 30)])
    4 1000.

(** The same table once Ana has been added at time 1000. *)
Definition four_clients : Pg.t :=
  Pg.mk true
    (Some [Pg.mk_row 1 "Ana" (Some "Rua 1") None (Some 10);
           Pg.mk_row 2 "Bia" None (Some "555") (Some 20);
           Pg.mk_row 3 "Caio" None None (Some 30);
           Pg.mk_row 4 "Ana" (Some "Rua 1") None (Some 1000)])
    5 1000.

(** One row whose [created_at] is NULL. *)
Definition undated_client : Pg.t :=
  Pg.mk true (Some [Pg.mk_row 1 "Ana" None None None]) 2 1000.

Definition healthy (shape : Supabase.shape) (db : Pg.t) : Supabase.t :=
  Supabase.mk db shape None.

(** Direct-pool mode: no service configured, driver installed. *)
Definition direct (db : Pg.t) : world :=
  mk_world None None None None false true db
    (healthy Supabase.ObjectShape empty_table) [].

(** Hosted-table mode, with a database server of its own nearby. *)
Definition hosted_on (s : Supabase.t) : world :=
  mk_world (Some "https://mercia.supabase.co") (Some "service-key")
    None None true true empty_table s [].

(** Direct mode with the pool as [init_pool] builds it. *)
Definition pooled : world :=
  set_pool (Some (Pool.mk 1 5 [0%nat] [] 1)) (direct empty_table).

(** The process after one [insert_client] in direct mode on the three
    clients: the pool is built, its connection is back, Ana is stored. *)
Definition with_ana : world :=
  mk_world None None None (Some (Pool.mk 1 5 [0%nat] [] 1)) false true
    four_clients (healthy Supabase.ObjectShape empty_table)
    [Called "insert_client"; Getconn 0; Putconn 0].

(** A service that answers an insert with no data and no error. *)
Definition silent (shape : Supabase.shape) : Supabase.t :=
  Supabase.mk empty_table shape (Some (Supabase.Replies None VNone)).

(** A service that answers with an empty [data] and an error. *)
Definition refusing : Supabase.t :=
  Supabase.mk empty_table Supabase.ObjectShape
    (Some (Supabase.Replies (Some []) (VStr "permission denied"))).

(** A service that answers every request with somebody else's row. *)
Definition confused : Supabase.t :=
  Supabase.mk empty_table Supabase.ObjectShape
    (Some (Supabase.Replies
             (Some [Pg.mk_row 7 "Zeca" (Some "Av. 9") None (Some 50)])
             VNone)).

Definition blank : app.body := app.mk_body (Some "   ") None None.

Definition padded : app.body :=
  app.mk_body (Some "  Ana ") (Some " Rua 1  ") None.

End sample.

(** ** Further sample inputs *)

Module cases.

Import sample.

(** The client that [init_supabase] builds for [hosted_on]. *)
Definition client : string * string :=
  ("https://mercia.supabase.co", "service-key").

(** A service whose requests raise. *)
Definition raising : Supabase.t :=
  Supabase.mk empty_table Supabase.ObjectShape
    (Some (Supabase.Raises "timeout")).

(** A dict-shaped reply with an empty list and an error beside it. *)
Definition muddled : Supabase.t :=
  Supabase.mk empty_table Supabase.DictShape
    (Some (Supabase.Replies (Some []) (VStr "warning"))).

(** Direct mode with all five connections checked out. *)
Definition exhausted : world :=
  set_pool (Some (Pool.mk 1 5 [] [4; 3; 2; 1; 0]%nat 5)) (direct empty_table).


Definition ana : app.ClientIn := app.mk_ClientIn "Ana" (Some "Rua 1") None.

(** The answer to the create request that adds Ana to the three clients. *)
Definition ana_created : app.ClientOut := app.mk_ClientOut ana 4 "t=1000".

End cases.

(** * Properties *)

(** ** Stripping *)

Section StripFacts.

Variable is_space : ascii -> bool.


Lemma lstrip_all_space s : all_space is_space s = true -> lstrip is_space s = EmptyString.
Proof.
  induction s as [|c s IH]; simpl; [reflexivity|].
  intros [Hc Hs]%andb_prop. rewrite Hc. auto.
Qed.

Lemma strip_all_space s : all_space is_space s = true -> strip is_space s = EmptyString.
Proof. intros H. unfold strip. rewrite lstrip_all_space; auto. Qed.




Lemma lstrip_first s c : first_char (lstrip is_space s) = Some c -> is_space c = false.
Proof.
  induction s as [|d s IH]; simpl; [discriminate|].
  destruct (is_space d) eqn:Hd; [exact IH|].
  simpl. intros [= <-]. exact Hd.
Qed.

Lemma rstrip_first s c : first_char (rstrip is_space s) = Some c -> first_char s = Some c.
Proof.
  destruct s as [|d s]; simpl; [discriminate|].
  destruct (rstrip is_space s); [destruct (is_space d)|]; simpl; congruence.
Qed.

Lemma rstrip_last s c : last_char (rstrip is_space s) = Some c -> is_space c = false.
Proof.
  induction s as [|d s IH]; simpl; [discriminate|].
  destruct (rstrip is_space s) as [|e t] eqn:Ht.
  - destruct (is_space d) eqn:Hd; simpl; [discriminate|].
    intros [= <-]. exact Hd.
  - simpl. exact IH.
Qed.

Lemma strip_trimmed s : trimmed is_space (strip is_space s).
Proof.
  split; intros c Hc.
  - apply rstrip_first in Hc. eapply lstrip_first; eauto.
  - eapply rstrip_last; eauto.
Qed.

Lemma lstrip_fixed s :
  (forall c, first_char s = Some c -> is_space c = false) -> lstrip is_space s = s.
Proof.
  destruct s as [|d s]; simpl; [reflexivity|].
  intros H. rewrite (H d); reflexivity.
Qed.

Lemma rstrip_fixed s :
  (forall c, last_char s = Some c -> is_space c = false) -> rstrip is_space s = s.
Proof.
  induction s as [|d s IH]; simpl; [reflexivity|].
  intros H. destruct s as [|e t].
  - simpl. rewrite (H d); reflexivity.
  - rewrite IH; [reflexivity|exact H].
Qed.

Lemma strip_fixed s : trimmed is_space s -> strip is_space s = s.
Proof.
  intros [Hf Hl]. unfold strip.
  rewrite (lstrip_fixed s Hf). apply rstrip_fixed, Hl.
Qed.

Lemma strip_idempotent s : strip is_space (strip is_space s) = strip is_space s.
Proof. apply strip_fixed, strip_trimmed. Qed.

End StripFacts.

(** ** ORDER BY created_at DESC *)

Module PgFacts.

Import Pg.











End PgFacts.

(** ** The pool and the statements, step by step *)

Module Steps.

Import dbcenter.

Lemma same_config_refl w : same_config w w.
Proof. by repeat split. Qed.

Lemma same_config_trans w1 w2 w3 :
  same_config w1 w2 -> same_config w2 w3 -> same_config w1 w3.
Proof. unfold same_config. intuition congruence. Qed.

Lemma same_config_hosted_mode w w' :
  same_config w w' -> hosted_mode w' = hosted_mode w.
Proof. unfold hosted_mode. intros (-> & -> & _). reflexivity. Qed.

Ltac run_world :=
  unfold get_conn, put_conn, init_pool, close_pool, on_postgres, bind, read,
    ret, raise, lift, modify, try_finally, try_except, same_config,
    used_of, maxconn_of, outstanding, is_Some in *.

Ltac frame := repeat split; eauto.

Lemma get_conn_raised w e w1 :
  get_conn w = (inl e, w1) ->
  _pool w1 = _pool w /\ log w1 = log w /\
  postgres w1 = postgres w /\ hosted w1 = hosted w /\ same_config w w1.
Proof.
  run_world.
  destruct w as [url key sb [p|] si pi db h l]; simpl.
  - unfold Pool.getconn. destruct (Pool.idle p) as [|c rest]; simpl.
    + destruct (length (Pool.used p) =? Pool.maxconn p)%nat; simpl.
      * intros [= <- <-]. simpl. frame.
      * destruct (Pg.up db); simpl; intros [= <- <-]; simpl; frame.
    + discriminate.
  - destruct pi; simpl; [|intros [= <- <-]; simpl; frame].
    unfold Pool.SimpleConnectionPool. destruct (Pg.up db); simpl.
    + discriminate.
    + intros [= <- <-]. simpl. frame.
Qed.

Lemma get_conn_returned w c w1 :
  get_conn w = (inr c, w1) ->
  used_of w1 = c :: used_of w /\ is_Some (_pool w1) /\
  maxconn_of w1 = maxconn_of w /\
  log w1 = log w ++ [Getconn c] /\
  postgres w1 = postgres w /\ hosted w1 = hosted w /\ same_config w w1.
Proof.
  run_world.
  destruct w as [url key sb [p|] si pi db h l]; simpl.
  - unfold Pool.getconn. destruct (Pool.idle p) as [|c' rest]; simpl.
    + destruct (length (Pool.used p) =? Pool.maxconn p)%nat; simpl; [discriminate|].
      destruct (Pg.up db); simpl; intros [= <- <-]; simpl; frame.
    + intros [= <- <-]; simpl; frame.
  - destruct pi; simpl; [|discriminate].
    unfold Pool.SimpleConnectionPool. destruct (Pg.up db); simpl.
    + intros [= <- <-]. simpl. frame.
    + discriminate.
Qed.

(** With the server up and room in the pool, [get_conn] hands out a
    connection. *)
Lemma get_conn_ready w :
  Pg.up (postgres w) = true ->
  (outstanding w < maxconn_of w)%nat ->
  (_pool w = None -> psycopg2_installed w = true) ->
  exists c w1, get_conn w = (inr c, w1).
Proof.
  run_world.
  destruct w as [url key sb [p|] si pi db h l]; simpl; intros Hup Hroom Hdrv.
  - unfold Pool.getconn. rewrite Hup. destruct (Pool.idle p) as [|c rest]; simpl.
    + destruct (Nat.eqb_spec (length (Pool.used p)) (Pool.maxconn p)); [lia|].
      simpl. eauto.
    + eauto.
  - rewrite Hdrv by reflexivity. simpl.
    unfold Pool.SimpleConnectionPool. rewrite Hup. simpl. eauto.
Qed.

Lemma put_conn_checked_out c w :
  (exists U, used_of w = c :: U) ->
  exists w1,
    put_conn c w = (inr tt, w1) /\
    used_of w = c :: used_of w1 /\ is_Some (_pool w1) /\
    maxconn_of w1 = maxconn_of w /\
    log w1 = log w ++ [Putconn c] /\
    postgres w1 = postgres w /\ hosted w1 = hosted w /\ same_config w w1.
Proof.
  run_world.
  destruct w as [url key sb [p|] si pi db h l]; simpl; intros [U HU];
    [|discriminate].
  unfold Pool.putconn. rewrite HU. simpl. rewrite Nat.eqb_refl. simpl.
  eexists. split; [reflexivity|]. simpl. frame.
Qed.

Lemma on_postgres_frame {A} (stmt : Pg.t -> string + (A * Pg.t)) w r w1 :
  on_postgres stmt w = (r, w1) ->
  _pool w1 = _pool w /\ log w1 = log w /\ hosted w1 = hosted w /\
  same_config w w1 /\
  match r with
  | inl e => exists msg, stmt (postgres w) = inl msg /\ e = DatabaseError msg /\
                         postgres w1 = postgres w
  | inr a => stmt (postgres w) = inr (a, postgres w1)
  end.
Proof.
  run_world. destruct w as [url key sb p si pi db h l]; simpl.
  destruct (stmt db) as [msg|[a db']]; intros [= <- <-]; simpl; frame.
Qed.

(** A statement followed by a pure step, run between [get_conn] and the
    [put_conn] of the [finally] clause. *)
Lemma scoped_statement {A B} (stmt : Pg.t -> string + (A * Pg.t)) (f : A -> B)
    w r w' :
  (do conn <- get_conn;
   try_finally (do x <- on_postgres stmt; ret (f x)) (put_conn conn)) w
    = (r, w') ->
  (exists e, r = inl e /\ get_conn w = (inl e, w')) \/
  (exists c w1 w2,
     get_conn w = (inr c, w1) /\
     put_conn c w2 = (inr tt, w') /\
     match stmt (postgres w) with
     | inl msg => r = inl (DatabaseError msg) /\ w2 = w1
     | inr (a, db') => r = inr (f a) /\ w2 = set_postgres db' w1
     end).
Proof.
  unfold bind at 1. destruct (get_conn w) as [[e|c] w1] eqn:Hget.
  - intros [= <- <-]. left. eauto.
  - destruct (get_conn_returned _ _ _ Hget) as (Hused & _ & _ & _ & Hdb & _).
    unfold try_finally, bind at 1.
    destruct (on_postgres stmt w1) as [[e|a] w2] eqn:Hrun.
    + destruct (put_conn_checked_out c w2) as (w3 & Hput & _).
      { apply on_postgres_frame in Hrun as (Hp & _).
        exists (used_of w). unfold used_of in *. by rewrite Hp. }
      rewrite Hput. intros [= <- <-]. right. exists c, w1, w2.
      repeat split; auto.
      revert Hrun. unfold on_postgres, bind, read, raise, modify, ret.
      rewrite <- Hdb. destruct (stmt (postgres w1)) as [msg|[a db']].
      * by intros [= <- <-].
      * discriminate.
    + unfold ret at 1.
      destruct (put_conn_checked_out c w2) as (w3 & Hput & _).
      { apply on_postgres_frame in Hrun as (Hp & _).
        exists (used_of w). unfold used_of in *. by rewrite Hp. }
      rewrite Hput. intros [= <- <-]. right. exists c, w1, w2.
      repeat split; auto.
      revert Hrun. unfold on_postgres, bind, read, raise, modify, ret.
      rewrite <- Hdb. destruct (stmt (postgres w1)) as [msg|[a' db']].
      * discriminate.
      * by intros [= <- <-].
Qed.

End Steps.

(** ** Direct mode: one checkout per operation *)

Section Direct.

Import dbcenter Steps.

Variable str_datetime : Z -> string.
Variable iso_datetime : Z -> string.

Lemma outstanding_used_of w : outstanding w = length (used_of w).
Proof. unfold outstanding, used_of. by destruct (_pool w). Qed.

Lemma called_then_scoped {A B} operation
    (stmt : Pg.t -> string + (A * Pg.t)) (f : A -> B) w :
  scoped_use operation w
    ((do conn <- get_conn;
      try_finally (do x <- on_postgres stmt; ret (f x)) (put_conn conn))
       (record (Called operation) w)).
Proof.
  set (w0 := record (Called operation) w).
  destruct ((do conn <- get_conn;
             try_finally (do x <- on_postgres stmt; ret (f x)) (put_conn conn))
              w0) as [r w'] eqn:Hrun.
  assert (Hw0 : used_of w0 = used_of w /\ log w0 = log w ++ [Called operation])
    by (by destruct w).
  destruct Hw0 as [Hu0 Hl0].
  apply scoped_statement in Hrun as [(e & -> & Hget)|(c & w1 & w2 & Hget & Hput & Hstmt)].
  - apply get_conn_raised in Hget as (Hp & Hl & _).
    unfold scoped_use. simpl. split.
    + rewrite !outstanding_used_of. unfold used_of in *. by rewrite Hp.
    + left. split; [congruence|eauto].
  - apply get_conn_returned in Hget as (Hu1 & _ & _ & Hl1 & _).
    destruct (put_conn_checked_out c w2) as (w3 & Hput' & Hu2 & _ & _ & Hl2 & _).
    { exists (used_of w0).
      destruct (stmt (postgres w0)) as [msg|[a db']];
        destruct Hstmt as [_ ->]; [exact Hu1|by destruct w1]. }
    rewrite Hput in Hput'. injection Hput' as <-.
    assert (Hw2 : used_of w2 = used_of w1 /\ log w2 = log w1).
    { destruct (stmt (postgres w0)) as [msg|[a db']];
        destruct Hstmt as [_ ->]; [done|by destruct w1]. }
    destruct Hw2 as [Hu21 Hl21].
    unfold scoped_use. simpl. split.
    + rewrite !outstanding_used_of. congruence.
    + right. exists c. rewrite Hl2, Hl21, Hl1, Hl0, <- !app_assoc. reflexivity.
Qed.

(** C6.  In direct-pool mode [insert_client] and [get_clients] give back
    the connection they acquire exactly once, whether the statement succeeds
    or raises: the log shows one [Getconn] and one [Putconn] of the same
    connection (or no pool traffic at all when no connection could be
    acquired), and the number of outstanding checkouts is what it was before
    the call. *)
Theorem connection_released_exactly_once w :
  hosted_mode w = false ->
  (forall name address phone,
     scoped_use "insert_client" w
       (insert_client str_datetime iso_datetime name address phone w)) /\
  (forall limit,
     scoped_use "get_clients" w
       (get_clients str_datetime iso_datetime limit w)).
Proof.
  intros Hmode. split.
  - intros name address phone.
    unfold insert_client, bind at 1 2, modify, read.
    change (hosted_mode (record (Called "insert_client") w))
      with (hosted_mode w).
    rewrite Hmode. apply called_then_scoped.
  - intros limit.
    unfold get_clients, bind at 1 2, modify, read.
    change (hosted_mode (record (Called "get_clients") w))
      with (hosted_mode w).
    rewrite Hmode. apply called_then_scoped.
Qed.

End Direct.

(** ** Hosted mode: unwrapping the reply *)

Section Hosted.

Import dbcenter Steps.

Variable str_datetime : Z -> string.
Variable iso_datetime : Z -> string.

Lemma init_supabase_ready w :
  hosted_mode w = true ->
  is_Some (_supabase w) \/ supabase_installed w = true ->
  exists sb, init_supabase w = (inr sb, set_supabase (Some sb) w).
Proof.
  unfold hosted_mode, init_supabase, bind, read, ret, raise, modify.
  destruct w as [url key [sb|] p si pi db h l]; simpl.
  - intros _ _. by exists sb.
  - intros [Hu Hk]%andb_prop [[? [=]]| ->].
    destruct url as [u|], key as [k|]; try discriminate.
    simpl in *. rewrite Hu, Hk. simpl. eauto.
Qed.

Lemma unwrap_data_run res w :
  unwrap_data res w =
    (inr match Supabase.res_shape res with
         | Supabase.ObjectShape =>
             if truthy_data (Supabase.res_data res)
             then Supabase.res_data res else None
         | Supabase.DictShape => Supabase.res_data res
         end, w).
Proof.
  unfold unwrap_data, try_except, py_or, getattr_data, get_data.
  destruct (Supabase.res_shape res); simpl; [|reflexivity].
  by destruct (truthy_data (Supabase.res_data res)).
Qed.

Lemma unwrap_error_run res w :
  unwrap_error res w =
    match Supabase.res_shape res with
    | Supabase.ObjectShape =>
        if truthy (Supabase.res_error res)
        then (inr (Supabase.res_error res), w) else (inl no_get, w)
    | Supabase.DictShape => (inr (Supabase.res_error res), w)
    end.
Proof.
  unfold unwrap_error, py_or, getattr_error, get_error.
  destruct (Supabase.res_shape res); simpl; [|reflexivity].
  by destruct (truthy (Supabase.res_error res)).
Qed.

(** [insert_client] in hosted mode, once the client is at hand and the
    service has answered. *)
Lemma insert_client_answered w name address phone sb w1 res w2 :
  hosted_mode w = true ->
  init_supabase (record (Called "insert_client") w) = (inr sb, w1) ->
  execute iso_datetime (Supabase.Insert name address phone) w1 = (inr res, w2) ->
  insert_client str_datetime iso_datetime name address phone w =
    (do data <- unwrap_data res;
     if negb (truthy_data data) then
       do err <- unwrap_error res;
       raise (RuntimeError ("Falha ao inserir no Supabase: " +:+ str str_datetime err))
     else
       do row <- first_row data;
       ret {[ "id" := get row "id"; "created_at" := get row "created_at" ]}) w2.
Proof.
  intros Hmode Hsb Hex.
  unfold insert_client, bind at 1 2, modify, read.
  change (hosted_mode (record (Called "insert_client") w)) with (hosted_mode w).
  rewrite Hmode. unfold bind at 1. rewrite Hsb.
  unfold bind at 1. rewrite Hex. reflexivity.
Qed.

Lemma get_clients_answered w limit sb w1 res w2 :
  hosted_mode w = true ->
  init_supabase (record (Called "get_clients") w) = (inr sb, w1) ->
  execute iso_datetime (Supabase.SelectAllRecent (default 100 limit)) w1
    = (inr res, w2) ->
  get_clients str_datetime iso_datetime limit w =
    (do data <- unwrap_data res;
     match data with
     | None =>
         do err <- unwrap_error res;
         raise (RuntimeError
                  ("Falha ao listar clientes no Supabase: " +:+ str str_datetime err))
     | Some rows => ret rows
     end) w2.
Proof.
  intros Hmode Hsb Hex.
  unfold get_clients, bind at 1 2, modify, read.
  change (hosted_mode (record (Called "get_clients") w)) with (hosted_mode w).
  rewrite Hmode. unfold bind at 1. rewrite Hsb.
  unfold bind at 1. rewrite Hex. reflexivity.
Qed.

End Hosted.

Section HostedInsert.

Import dbcenter Steps.

Variable str_datetime : Z -> string.
Variable iso_datetime : Z -> string.

(** C5 (amended).  In hosted mode, an insert whose reply carries no data
    (none at all, or an empty list) always raises.  When the reply reports
    an error, or is dict-shaped, the exception is a [RuntimeError] whose
    message is the fixed prefix followed by [str] of the reported error; for
    a dict-shaped reply that reports none this reads [None]. *)
Theorem insert_without_data_raises w name address phone sb w1 res w2 :
  hosted_mode w = true ->
  init_supabase (record (Called "insert_client") w) = (inr sb, w1) ->
  execute iso_datetime (Supabase.Insert name address phone) w1 = (inr res, w2) ->
  truthy_data (Supabase.res_data res) = false ->
  exists e,
    insert_client str_datetime iso_datetime name address phone w = (inl e, w2) /\
    (truthy (Supabase.res_error res) = true \/
     Supabase.res_shape res = Supabase.DictShape ->
     e = RuntimeError ("Falha ao inserir no Supabase: " +:+
                       str str_datetime (Supabase.res_error res))) /\
    (Supabase.res_shape res = Supabase.DictShape ->
     Supabase.res_error res = VNone ->
     e = RuntimeError "Falha ao inserir no Supabase: None").
Proof.
  intros Hmode Hsb Hex Hdata.
  rewrite (insert_client_answered _ _ _ _ _ _ _ _ _ _ Hmode Hsb Hex).
  unfold bind at 1. rewrite unwrap_data_run.
  assert (Hfalsy : truthy_data
            match Supabase.res_shape res with
            | Supabase.ObjectShape =>
                if truthy_data (Supabase.res_data res)
                then Supabase.res_data res else None
            | Supabase.DictShape => Supabase.res_data res
            end = false).
  { destruct (Supabase.res_shape res); [by rewrite Hdata|exact Hdata]. }
  rewrite Hfalsy. change (negb false) with true. cbv iota.
  unfold bind at 1. rewrite unwrap_error_run.
  destruct (Supabase.res_shape res) eqn:Hshape.
  - destruct (truthy (Supabase.res_error res)) eqn:Herr.
    + eexists. split; [reflexivity|]. split; [reflexivity|discriminate].
    + eexists. split; [reflexivity|]. split; [intros [|]; discriminate|discriminate].
  - eexists. split; [reflexivity|]. split; [reflexivity|].
    intros _ ->. reflexivity.
Qed.

End HostedInsert.

(** ** Listing on a ready backend *)

Section Listing.

Import dbcenter Steps.

Variable str_datetime : Z -> string.
Variable iso_datetime : Z -> string.

Lemma put_conn_frame c w r w1 :
  put_conn c w = (r, w1) ->
  postgres w1 = postgres w /\ hosted w1 = hosted w /\ same_config w w1.
Proof.
  run_world. destruct w as [url key sb [p|] si pi db h l]; simpl.
  - destruct (Pool.putconn c p); simpl; intros [= <- <-]; simpl; frame.
  - intros [= <- <-]. simpl. frame.
Qed.

Lemma select_recent_ready limit db table :
  Pg.up db = true -> Pg.clients db = Some table -> 0 <= limit ->
  Pg.select_recent limit db = inr (take (Z.to_nat limit) (Pg.order_desc table)).
Proof.
  intros Hup Htable Hlimit. unfold Pg.select_recent.
  rewrite Hup, Htable. by destruct (Z.ltb_spec limit 0); [lia|].
Qed.

Lemma ready_table w : ready w -> Pg.clients (backend w) = Some (stored w).
Proof.
  intros (_ & [table Htable] & _). unfold stored. by rewrite Htable.
Qed.


Lemma execute_run req w :
  execute iso_datetime req w =
    ((Supabase.execute iso_datetime req (hosted w)).1,
     set_hosted (Supabase.execute iso_datetime req (hosted w)).2 w).
Proof. reflexivity. Qed.

Lemma select_all_healthy limit s table :
  Supabase.failing s = None -> Pg.up (Supabase.db s) = true ->
  Pg.clients (Supabase.db s) = Some table -> 0 <= limit ->
  Supabase.execute iso_datetime (Supabase.SelectAllRecent limit) s =
    (inr (Supabase.mk_response (Supabase.reply_shape s)
            (Some (map (Supabase.json_row iso_datetime)
                     (take (Z.to_nat limit) (Pg.order_desc table))))
            VNone), s).
Proof.
  intros Hok Hup Htable Hlimit. unfold Supabase.execute. rewrite Hok.
  by rewrite (select_recent_ready _ _ _ Hup Htable Hlimit).
Qed.

Lemma ready_hosted_client w operation :
  hosted_mode w = true -> ready w ->
  exists sb,
    init_supabase (record (Called operation) w) =
      (inr sb, set_supabase (Some sb) (record (Called operation) w)).
Proof.
  intros Hmode (_ & _ & Hrest). rewrite Hmode in Hrest.
  destruct Hrest as [Hclient _].
  apply init_supabase_ready; by destruct w.
Qed.

Lemma get_clients_hosted w limit :
  hosted_mode w = true -> ready w -> 0 <= default 100 limit ->
  exists w',
    get_clients str_datetime iso_datetime limit w =
      (match Supabase.reply_shape (hosted w),
             take (Z.to_nat (default 100 limit)) (Pg.order_desc (stored w)) with
       | Supabase.ObjectShape, [] => inl no_get
       | _, rows => inr (map (Supabase.json_row iso_datetime) rows)
       end, w').
Proof.
  intros Hmode Hready Hlimit.
  pose proof (ready_table w Hready) as Htable.
  destruct (ready_hosted_client w "get_clients" Hmode Hready) as [sb Hsb].
  destruct Hready as (Hup & _ & Hrest).
  unfold backend in *. rewrite Hmode in *. destruct Hrest as [_ Hok].
  set (w1 := set_supabase (Some sb) (record (Called "get_clients") w)) in *.
  assert (Hex := execute_run (Supabase.SelectAllRecent (default 100 limit)) w1).
  change (hosted w1) with (hosted w) in Hex.
  rewrite (select_all_healthy _ _ _ Hok Hup Htable Hlimit) in Hex.
  rewrite (get_clients_answered _ _ _ _ _ _ _ _ Hmode Hsb Hex).
  unfold bind at 1. rewrite unwrap_data_run.
  cbn [Supabase.res_shape Supabase.res_data Supabase.res_error].
  destruct (Supabase.reply_shape (hosted w)).
  - destruct (take _ _) as [|r rows] eqn:Htake.
    + cbn [map truthy_data]. unfold bind at 1. rewrite unwrap_error_run.
      cbn [Supabase.res_shape Supabase.res_error truthy]. eauto.
    + cbn [map truthy_data]. unfold ret. eauto.
  - destruct (take _ _); unfold ret; eauto.
Qed.


End Listing.

(** ** Inserting on a ready backend *)

Section Inserting.

Import dbcenter Steps.

Variable str_datetime : Z -> string.
Variable iso_datetime : Z -> string.





End Inserting.

(** ** The adapter on a ready backend *)

Section ReadyBackend.

Import dbcenter Steps.

Variable str_datetime : Z -> string.
Variable iso_datetime : Z -> string.







(** C1 (the defect).  Listing an empty table through a healthy hosted
    service whose reply is object-shaped does not return the empty list: the
    empty [data] is falsy, the fallback [res.get] raises, [data] is taken to
    be [None], and the second [res.get] raises out of [get_clients]. *)
Theorem empty_listing_raises_on_object_reply w limit :
  hosted_mode w = true ->
  ready w ->
  Supabase.reply_shape (hosted w) = Supabase.ObjectShape ->
  stored w = [] ->
  0 <= default 100 limit ->
  exists w',
    get_clients str_datetime iso_datetime limit w
      = (inl (AttributeError "object has no attribute 'get'"), w').
Proof.
  intros Hmode Hready Hshape Hempty Hlimit.
  destruct (get_clients_hosted str_datetime iso_datetime w limit
              Hmode Hready Hlimit) as [w' Hlist].
  rewrite Hshape, Hempty in Hlist. simpl in Hlist.
  rewrite take_nil in Hlist. eauto.
Qed.

End ReadyBackend.

(** ** The HTTP service *)

Section Routes.

Import dbcenter app.

Variable is_space : ascii -> bool.
Variable str_datetime : Z -> string.
Variable iso_datetime : Z -> string.

Lemma constr_strips n s t :
  constr is_space true n s = Some t ->
  t = strip is_space s /\ (n <= String.length t)%nat.
Proof.
  unfold constr. destruct (Nat.leb_spec n (String.length (strip is_space s)));
    [|discriminate].
  by intros [= <-].
Qed.

Lemma constr_trimmed s :
  trimmed is_space s -> constr is_space true 0 s = Some s.
Proof. intros H. unfold constr. by rewrite (strip_fixed _ _ H). Qed.

Lemma optional_constr_strips o r :
  optional_constr is_space true 0 o = Some r -> r = strip is_space <$> o.
Proof.
  destruct o as [s|]; simpl; [|by intros [= <-]].
  unfold constr. simpl. by intros [= <-].
Qed.

(** What an accepted body becomes. *)
Lemma parse_ClientIn_spec b payload :
  parse_ClientIn is_space b = Some payload ->
  exists n,
    body_name b = Some n /\
    name payload = strip is_space n /\
    (1 <= String.length (name payload))%nat /\
    address payload = strip is_space <$> body_address b /\
    phone payload = strip is_space <$> body_phone b.
Proof.
  unfold parse_ClientIn.
  destruct (body_name b) as [n|]; [|discriminate]. simpl.
  destruct (constr is_space true 1 n) as [n'|] eqn:Hn; [|discriminate]. simpl.
  destruct (optional_constr is_space true 0 (body_address b)) as [a|] eqn:Ha;
    [|discriminate]. simpl.
  destruct (optional_constr is_space true 0 (body_phone b)) as [p|] eqn:Hp;
    [|discriminate]. simpl.
  intros [= <-]. simpl.
  apply constr_strips in Hn as [-> Hlen].
  apply optional_constr_strips in Ha, Hp. eauto 10.
Qed.

Lemma blank_name_refused b n :
  body_name b = Some n -> all_space is_space n = true ->
  parse_ClientIn is_space b = None.
Proof.
  intros Hn Hblank. unfold parse_ClientIn. rewrite Hn. simpl.
  unfold constr. by rewrite (strip_all_space _ _ Hblank).
Qed.

(** C3.  A create request whose name is empty or white space only is turned
    away by validation with the process state untouched, so before
    [insert_client] or any other adapter call; and an accepted request
    reaches the handler with [name], [address] and [phone] stripped: each is
    the text of the request without the white space at its two ends. *)
Theorem blank_name_rejected_before_insert b :
  (forall n w,
     body_name b = Some n -> all_space is_space n = true ->
     post_clients is_space str_datetime iso_datetime b w
       = (HttpError 422 "Unprocessable Entity", w)) /\
  (forall payload,
     parse_ClientIn is_space b = Some payload ->
     Some (name payload) = strip is_space <$> body_name b /\
     address payload = strip is_space <$> body_address b /\
     phone payload = strip is_space <$> body_phone b /\
     trimmed is_space (name payload) /\
     (forall a, address payload = Some a -> trimmed is_space a) /\
     (forall p, phone payload = Some p -> trimmed is_space p)).
Proof.
  split.
  - intros n w Hn Hblank. unfold post_clients.
    by rewrite (blank_name_refused b n Hn Hblank).
  - intros payload (n & Hn & Hname & _ & Ha & Hp)%parse_ClientIn_spec.
    rewrite Hn, Hname, Ha, Hp. simpl.
    split; [reflexivity|]. split; [reflexivity|]. split; [reflexivity|].
    split; [apply strip_trimmed|].
    split.
    + intros a. destruct (body_address b); simpl; [|discriminate].
      intros [= <-]. apply strip_trimmed.
    + intros p. destruct (body_phone b); simpl; [|discriminate].
      intros [= <-]. apply strip_trimmed.
Qed.

Lemma created_dict_fields payload i c :
  let d : dict := payload_dict payload ∪ {[ "id" := i; "created_at" := VStr c ]} in
  get d "name" = VStr (name payload) /\
  get d "address" = of_opt_str (address payload) /\
  get d "phone" = of_opt_str (phone payload) /\
  get d "id" = i /\ get d "created_at" = VStr c.
Proof. by repeat split. Qed.

Lemma as_optional_text_of_opt_str o :
  as_optional_text (of_opt_str o) = Some o.
Proof. by destruct o. Qed.

Lemma optional_constr_trimmed o :
  (forall s, o = Some s -> trimmed is_space s) ->
  optional_constr is_space true 0 o = Some o.
Proof.
  destruct o as [s|]; unfold optional_constr; [|reflexivity].
  intros H. by rewrite constr_trimmed by auto.
Qed.

(** The response model accepts what [create_client] returns exactly when
    the backend's [id] is an integer, and hands the payload back as it is. *)
Lemma parse_created b payload i c :
  parse_ClientIn is_space b = Some payload ->
  parse_ClientOut is_space
    (payload_dict payload ∪ {[ "id" := i; "created_at" := VStr c ]})
  = (n ← as_int i; Some (mk_ClientOut payload n c)).
Proof.
  intros (n & Hn & Hname & Hlen & Ha & Hp)%parse_ClientIn_spec.
  unfold parse_ClientOut.
  destruct (created_dict_fields payload i c) as (-> & -> & -> & -> & ->).
  simpl. unfold constr at 1.
  rewrite Hname, strip_idempotent, <- Hname.
  destruct (Nat.leb_spec 1 (String.length (name payload))); [|lia]. simpl.
  rewrite !as_optional_text_of_opt_str. simpl.
  rewrite !optional_constr_trimmed; simpl.
  - by destruct payload.
  - intros s. rewrite Ha. destruct (body_address b); simpl; [|discriminate].
    intros [= <-]. apply strip_trimmed.
  - intros s. rewrite Hp. destruct (body_phone b); simpl; [|discriminate].
    intros [= <-]. apply strip_trimmed.
Qed.

(** C10.  In a successful create the [name], [address] and [phone] of the
    response are the payload's own stripped values, handed back by the
    handler whatever the backend stored or answered; the backend supplies
    only [id] and [created_at], the latter through [str]. *)
Theorem create_response_echoes_payload b w out w' :
  post_clients is_space str_datetime iso_datetime b w = (Http200 out, w') ->
  exists payload inserted,
    parse_ClientIn is_space b = Some payload /\
    insert_client str_datetime iso_datetime
      (name payload) (address payload) (phone payload) w
      = (inr inserted, w') /\
    base out = payload /\
    Some (name (base out)) = strip is_space <$> body_name b /\
    address (base out) = strip is_space <$> body_address b /\
    phone (base out) = strip is_space <$> body_phone b /\
    inserted !! "id" = Some (VInt (id out)) /\
    dbcenter.str str_datetime <$> inserted !! "created_at"
      = Some (created_at out).
Proof.
  unfold post_clients.
  destruct (parse_ClientIn is_space b) as [payload|] eqn:Hparse;
    [|discriminate].
  unfold respond, create_client, try_except, bind at 1.
  destruct (insert_client _ _ _ _ _ w) as [[e|inserted] w1] eqn:Hins.
  { unfold raise. discriminate. }
  unfold bind at 1, getitem at 1.
  destruct (inserted !! "id") as [i|] eqn:Hi; [|unfold raise; discriminate].
  unfold ret at 1, bind at 1, getitem.
  destruct (inserted !! "created_at") as [c|] eqn:Hc;
    [|unfold raise; discriminate].
  unfold ret at 1 2. rewrite (parse_created b payload i _ Hparse).
  destruct i as [|n| |]; simpl; try discriminate.
  intros [= <- <-]. exists payload, inserted. simpl.
  apply parse_ClientIn_spec in Hparse as (n0 & Hn & Hname & _ & Ha & Hp).
  rewrite Hn, Hc. simpl. rewrite <- Hname. by repeat split.
Qed.

End Routes.

Section ListingRoute.

Import dbcenter app Steps.

Variable is_space : ascii -> bool.
Variable str_datetime : Z -> string.
Variable iso_datetime : Z -> string.

Lemma parse_ClientOut_needs_created_at d :
  get d "created_at" = VNone -> parse_ClientOut is_space d = None.
Proof.
  intros Hnull. unfold parse_ClientOut. rewrite Hnull.
  destruct (as_text (get d "name")); simpl; [|reflexivity].
  destruct (constr is_space true 1 _); simpl; [|reflexivity].
  destruct (as_optional_text (get d "address")); simpl; [|reflexivity].
  destruct (optional_constr is_space true 0 _); simpl; [|reflexivity].
  destruct (as_optional_text (get d "phone")); simpl; [|reflexivity].
  destruct (optional_constr is_space true 0 _); simpl; [|reflexivity].
  by destruct (as_int (get d "id")).
Qed.

(** C7 (the defect).  The handler does its part: every record it
    returns carries [created_at] as text, or [None] when none is stored.
    But [ClientOut] declares [created_at: str], so a listing that holds one
    such [None] does not pass the response model and the request ends in a
    500. *)
Theorem null_created_at_fails_the_listing limit w rows w' :
  list_clients str_datetime iso_datetime limit w = (inr rows, w') ->
  Forall (fun r : dict =>
            get r "created_at" = VNone \/
            exists s, get r "created_at" = VStr s) rows /\
  ((exists r : dict, r ∈ rows /\ get r "created_at" = VNone) ->
   get_clients_route is_space str_datetime iso_datetime limit w
     = (HttpError 500 "Internal Server Error", w')).
Proof.
  intros Hrun. split.
  - revert Hrun. unfold list_clients, try_except, bind at 1.
    destruct (get_clients _ _ _ w) as [[e|stored_rows] w1];
      [unfold raise; discriminate|].
    unfold ret. intros [= <- <-].
    apply Forall_forall. intros r Hr.
    apply list_elem_of_In, in_map_iff in Hr as (r0 & <- & _).
    destruct (get r0 "created_at") eqn:Hc.
    + by left.
    + right. by eexists.
    + right. by eexists.
    + right. by eexists.
  - intros (r & Hr & Hnull). unfold get_clients_route, respond.
    rewrite Hrun, mapM_None_2; [reflexivity|].
    apply Exists_exists. exists r. split; [exact Hr|].
    by apply parse_ClientOut_needs_created_at.
Qed.

End ListingRoute.

(** ** The life of the pool *)

Section PoolLife.

Import dbcenter app Steps.

Variable str_datetime : Z -> string.
Variable iso_datetime : Z -> string.

Lemma init_pool_builds w :
  _pool w = None -> psycopg2_installed w = true ->
  Pg.up (postgres w) = true ->
  init_pool None None w
    = (inr tt, set_pool (Some (Pool.mk 1 5 [0%nat] [] 1)) w).
Proof.
  run_world. intros -> -> Hup. simpl.
  unfold Pool.SimpleConnectionPool. by rewrite Hup.
Qed.

Lemma init_pool_kept w minconn maxconn :
  is_Some (_pool w) -> init_pool minconn maxconn w = (inr tt, w).
Proof. run_world. by intros [p ->]. Qed.

(** In hosted mode the table check never touches the pool. *)
Lemma create_clients_table_hosted_pool w r w' :
  hosted_mode w = true ->
  create_clients_table iso_datetime w = (r, w') -> _pool w' = _pool w.
Proof.
  intros Hmode. unfold create_clients_table, bind at 1 2, modify, read.
  change (hosted_mode (record (Called "create_clients_table") w))
    with (hosted_mode w).
  rewrite Hmode. unfold bind at 1.
  destruct (init_supabase _) as [[e|sb] w1] eqn:Hsb.
  - intros [= <- <-]. revert Hsb.
    unfold init_supabase, bind, read, ret, raise, modify.
    destruct w as [url key [c|] p si pi db h l]; simpl; [discriminate|].
    destruct si; simpl; [|by intros [= <- <-]].
    destruct (negb (truthy_str url) || negb (truthy_str key)); simpl;
      [by intros [= <- <-]|discriminate].
  - assert (Hp1 : _pool w1 = _pool w).
    { revert Hsb. unfold init_supabase, bind, read, ret, raise, modify.
      destruct w as [url key [c|] p si pi db h l]; simpl;
        [by intros [= <- <-]|].
      destruct si; simpl; [|discriminate].
      destruct (negb (truthy_str url) || negb (truthy_str key)); simpl;
        [discriminate|by intros [= <- <-]]. }
    unfold try_except, bind at 1. rewrite execute_run.
    destruct (Supabase.execute _ _ _) as [[e|res] s]; simpl;
      unfold ret; intros [= <- <-]; by destruct w1.
Qed.

(** C2 (the defect).  [startup_event] calls [init_pool] whatever the mode.
    With the hosted service configured and no pool yet, startup still builds
    a pool of direct connections when it can, and fails before the table is
    looked at when the driver is missing or the database server does not
    answer. *)
Theorem startup_builds_pool_in_hosted_mode w :
  hosted_mode w = true -> _pool w = None ->
  (psycopg2_installed w = true -> Pg.up (postgres w) = true ->
   forall r w', startup_event iso_datetime w = (r, w') ->
     _pool w' = Some (Pool.mk 1 5 [0%nat] [] 1)) /\
  (psycopg2_installed w = true -> Pg.up (postgres w) = false ->
   startup_event iso_datetime w = (inl Pool.could_not_connect, w)) /\
  (psycopg2_installed w = false ->
   exists msg, startup_event iso_datetime w = (inl (RuntimeError msg), w)).
Proof.
  intros Hmode Hpool. split; [|split].
  - intros Hdrv Hup r w'. unfold startup_event, bind at 1.
    rewrite (init_pool_builds w Hpool Hdrv Hup).
    unfold bind at 1.
    assert (Hmode1 : hosted_mode
              (set_pool (Some (Pool.mk 1 5 [0%nat] [] 1)) w) = true)
      by (rewrite <- Hmode; by destruct w).
    destruct (create_clients_table _ _) as [[e|ok] w1] eqn:Htable;
      intros [= <- <-];
      by rewrite (create_clients_table_hosted_pool _ _ _ Hmode1 Htable).
  - intros Hdrv Hup. unfold startup_event, bind at 1.
    run_world. rewrite Hpool, Hdrv. simpl.
    unfold Pool.SimpleConnectionPool. by rewrite Hup.
  - intros Hdrv. unfold startup_event, bind at 1.
    run_world. rewrite Hpool, Hdrv. simpl. eauto.
Qed.

(** C8 (amended).  While a pool exists [init_pool] changes nothing;
    [close_pool] leaves the process without a pool; and from there the next
    [init_pool], and equally the next [get_conn], builds a new one, given the
    driver and a server that answers. *)
Theorem pool_kept_until_closed w :
  (forall minconn maxconn,
     is_Some (_pool w) -> init_pool minconn maxconn w = (inr tt, w)) /\
  (close_pool w).1 = inr tt /\
  _pool (close_pool w).2 = None /\
  (_pool w = None -> psycopg2_installed w = true ->
   Pg.up (postgres w) = true ->
   is_Some (_pool (init_pool None None w).2) /\
   is_Some (_pool (get_conn w).2)).
Proof.
  split; [intros; by apply init_pool_kept|].
  split; [run_world; simpl; destruct (_pool w); reflexivity|].
  split; [run_world; simpl; destruct (_pool w) eqn:Hp; simpl; auto|].
  intros Hpool Hdrv Hup. split.
  - by rewrite (init_pool_builds w Hpool Hdrv Hup).
  - destruct (get_conn_ready w Hup) as (c & w1 & Hget).
    + unfold outstanding, maxconn_of. rewrite Hpool. lia.
    + auto.
    + rewrite Hget. by apply get_conn_returned in Hget as (_ & Hsome & _).
Qed.

End PoolLife.

(** ** The statements at sample inputs *)

Module checks.

Import dbcenter app sample.

(** An empty hosted table, a healthy service, an object-shaped reply. *)
Lemma empty_listing_raises_on_object_reply_witness :
  exists w',
    get_clients str_datetime iso_datetime None
      (hosted_on (healthy Supabase.ObjectShape empty_table))
    = (inl (AttributeError "object has no attribute 'get'"), w').
Proof.
  apply (empty_listing_raises_on_object_reply str_datetime iso_datetime
           (hosted_on (healthy Supabase.ObjectShape empty_table)) None).
  - reflexivity.
  - unfold ready. simpl. repeat split; eauto.
  - reflexivity.
  - reflexivity.
  - simpl. lia.
Defined.

(** The same table listed in direct mode and through a dict-shaped reply. *)
Example empty_listing_elsewhere :
  (get_clients str_datetime iso_datetime None (direct empty_table)).1 = inr []
  /\ (get_clients str_datetime iso_datetime None
        (hosted_on (healthy Supabase.DictShape empty_table))).1 = inr [].
Proof. split; reflexivity. Qed.

Lemma startup_builds_pool_in_hosted_mode_witness :
  _pool (startup_event iso_datetime
           (hosted_on (healthy Supabase.ObjectShape empty_table))).2
  = Some (Pool.mk 1 5 [0%nat] [] 1).
Proof.
  destruct (startup_builds_pool_in_hosted_mode iso_datetime
              (hosted_on (healthy Supabase.ObjectShape empty_table))
              eq_refl eq_refl) as [Hbuilt _].
  eapply (Hbuilt eq_refl eq_refl). apply surjective_pairing.
Defined.

Lemma blank_name_rejected_before_insert_witness :
  post_clients is_space str_datetime iso_datetime blank (direct empty_table)
    = (HttpError 422 "Unprocessable Entity", direct empty_table) /\
  parse_ClientIn is_space padded = Some (mk_ClientIn "Ana" (Some "Rua 1") None) /\
  trimmed is_space "Ana".
Proof.
  split; [|split; [reflexivity|]].
  - destruct (blank_name_rejected_before_insert is_space str_datetime
                iso_datetime blank) as [Hrejected _].
    apply (Hrejected "   "); reflexivity.
  - destruct (blank_name_rejected_before_insert is_space str_datetime
                iso_datetime padded) as [_ Haccepted].
    destruct (Haccepted (mk_ClientIn "Ana" (Some "Rua 1") None) eq_refl)
      as (_ & _ & _ & Htrimmed & _).
    exact Htrimmed.
Defined.


(** Clients created at 10 < 20 < 30 are listed 30, 20, 10; a limit of 2
    keeps the two most recent. *)
Example listing_three_clients :
  (get_clients str_datetime iso_datetime None (direct three_clients)).1
    = inr (map row_dict
             [Pg.mk_row 3 "Caio" None None (Some 30);
              Pg.mk_row 2 "Bia" None (Some "555") (Some 20);
              Pg.mk_row 1 "Ana" (Some "Rua 1") None (Some 10)]) /\
  (get_clients str_datetime iso_datetime (Some 2) (direct three_clients)).1
    = inr (map row_dict
             [Pg.mk_row 3 "Caio" None None (Some 30);
              Pg.mk_row 2 "Bia" None (Some "555") (Some 20)]).
Proof. split; reflexivity. Qed.

(** What the code does with a negative limit. *)
Example negative_limit_raises :
  (get_clients str_datetime iso_datetime (Some (-1)) (direct three_clients)).1
    = inl (DatabaseError "LIMIT must not be negative").
Proof. reflexivity. Qed.


Lemma insert_without_data_raises_witness :
  (insert_client str_datetime iso_datetime "Ana" None None
     (hosted_on refusing)).1
  = inl (RuntimeError "Falha ao inserir no Supabase: permission denied").
Proof.
  edestruct (insert_without_data_raises str_datetime iso_datetime
               (hosted_on refusing) "Ana" None None)
    as (e & Hrun & Hmsg & _).
  - reflexivity.
  - cbv. reflexivity.
  - cbv. reflexivity.
  - reflexivity.
  - rewrite Hrun. simpl. f_equal. apply Hmsg. by left.
Defined.

Example silent_insert_says_None :
  (insert_client str_datetime iso_datetime "Ana" None None
     (hosted_on (silent Supabase.DictShape))).1
  = inl (RuntimeError "Falha ao inserir no Supabase: None").
Proof. reflexivity. Qed.

Lemma silent_insert_not_unknown :
  ~ reports_unknown str_datetime iso_datetime "Ana" None None
      (hosted_on (silent Supabase.DictShape)).
Proof.
  intros (e & w' & Hrun & Hmsg).
  vm_compute in Hrun. injection Hrun as <- _.
  vm_compute in Hmsg. discriminate.
Qed.

(** One use on the success path, one on the error path (no table). *)
Lemma connection_released_exactly_once_witness :
  scoped_use "insert_client" (direct empty_table)
    (insert_client str_datetime iso_datetime "Ana" None None
       (direct empty_table)) /\
  scoped_use "get_clients" (direct no_table)
    (get_clients str_datetime iso_datetime None (direct no_table)).
Proof.
  split.
  - destruct (connection_released_exactly_once str_datetime iso_datetime
                (direct empty_table) eq_refl) as [Hinsert _].
    apply Hinsert.
  - destruct (connection_released_exactly_once str_datetime iso_datetime
                (direct no_table) eq_refl) as [_ Hlist].
    apply Hlist.
Defined.

(** The error path of the second use: the statement fails after the
    checkout, and the connection is back in the pool. *)
Example release_after_failed_statement :
  let res := get_clients str_datetime iso_datetime None (direct no_table) in
  res.1 = inl (DatabaseError "relation clients does not exist") /\
  log res.2 = [Called "get_clients"; Getconn 0; Putconn 0] /\
  outstanding res.2 = 0%nat.
Proof. by repeat split. Qed.

Lemma null_created_at_fails_the_listing_witness :
  (get_clients_route is_space str_datetime iso_datetime None
     (direct undated_client)).1
  = HttpError 500 "Internal Server Error".
Proof.
  destruct (null_created_at_fails_the_listing is_space str_datetime
              iso_datetime None (direct undated_client)
              [{[ "id" := VInt 1; "name" := VStr "Ana"; "address" := VNone;
                  "phone" := VNone; "created_at" := VNone ]}]
              (list_clients str_datetime iso_datetime None
                 (direct undated_client)).2)
    as [_ Hfails].
  - reflexivity.
  - rewrite Hfails; [reflexivity|].
    eexists. split; [left|reflexivity].
Defined.

(** The same table with the row dated is listed without trouble. *)
Example dated_listing_succeeds :
  (get_clients_route is_space str_datetime iso_datetime None
     (direct (Pg.mk true (Some [Pg.mk_row 1 "Ana" None None (Some 10)]) 2 1000))).1
  = Http200 [mk_ClientOut (mk_ClientIn "Ana" None None) 1 "t=10"].
Proof. reflexivity. Qed.

Lemma pool_kept_until_closed_witness :
  init_pool None None pooled = (inr tt, pooled) /\
  _pool (close_pool pooled).2 = None /\
  is_Some (_pool (get_conn (close_pool pooled).2).2).
Proof.
  split; [|split].
  - destruct (pool_kept_until_closed pooled) as [Hkept _].
    apply Hkept. by eexists.
  - destruct (pool_kept_until_closed pooled) as (_ & _ & Hclosed & _).
    exact Hclosed.
  - destruct (pool_kept_until_closed (close_pool pooled).2)
      as (_ & _ & _ & Hrebuilt).
    apply Hrebuilt; reflexivity.
Defined.

Lemma pool_rebuilt_after_close :
  ~ stays_closed str_datetime iso_datetime pooled.
Proof. unfold stays_closed. vm_compute. discriminate. Qed.


(** The service answers the insert with somebody else's row; the response
    still shows the payload's own name and address. *)
Lemma create_response_echoes_payload_witness :
  exists payload inserted,
    parse_ClientIn is_space padded = Some payload /\
    insert_client str_datetime iso_datetime
      (name payload) (address payload) (phone payload) (hosted_on confused)
      = (inr inserted,
         (post_clients is_space str_datetime iso_datetime padded
            (hosted_on confused)).2) /\
    name payload = "Ana" /\ address payload = Some "Rua 1" /\
    phone payload = None /\
    inserted !! "id" = Some (VInt 7).
Proof.
  destruct (create_response_echoes_payload is_space str_datetime iso_datetime
              padded (hosted_on confused)
              (mk_ClientOut (mk_ClientIn "Ana" (Some "Rua 1") None) 7 "T50")
              (post_clients is_space str_datetime iso_datetime padded
                 (hosted_on confused)).2)
    as (payload & inserted & Hparse & Hrun & Hbase & _ & _ & _ & Hid & _).
  - reflexivity.
  - exists payload, inserted. rewrite <- Hbase. by repeat split.
Defined.

Example confused_service_response :
  (post_clients is_space str_datetime iso_datetime padded
     (hosted_on confused)).1
  = Http200 (mk_ClientOut (mk_ClientIn "Ana" (Some "Rua 1") None) 7 "T50").
Proof. reflexivity. Qed.

End checks.

(** * Further properties *)

(** ** The hosted client is built once *)

Section HostedSteps.

Import dbcenter Steps.

Variable str_datetime : Z -> string.
Variable iso_datetime : Z -> string.

(** [init_supabase] changes nothing but the cached client. *)
Lemma init_supabase_world w r w1 :
  init_supabase w = (r, w1) ->
  match r with
  | inl e => w1 = w /\ _supabase w = None /\ exists msg, e = RuntimeError msg
  | inr sb => w1 = set_supabase (Some sb) w
  end.
Proof.
  unfold init_supabase, bind, read, ret, raise, modify.
  destruct w as [url key [c|] p si pi db h l]; simpl.
  - by intros [= <- <-].
  - destruct si; simpl; [|intros [= <- <-]; eauto].
    destruct (negb (truthy_str url) || negb (truthy_str key)); simpl;
      intros [= <- <-]; eauto.
Qed.

(** X1.  Once [init_supabase] has returned a client, every later call
    returns that same client and changes nothing; and the first call itself
    changed nothing but the cached client. *)
Theorem init_supabase_cached w sb w1 :
  init_supabase w = (inr sb, w1) ->
  init_supabase w1 = (inr sb, w1) /\
  _supabase w1 = Some sb /\
  w1 = set_supabase (Some sb) w.
Proof.
  intros Hfirst. apply init_supabase_world in Hfirst as ->.
  by destruct w.
Qed.

Lemma hosted_trace_start operation w :
  hosted_trace operation w (record (Called operation) w).
Proof. exists (_supabase w), (hosted w). by destruct w. Qed.

Lemma hosted_trace_client operation w sb :
  hosted_trace operation w
    (set_supabase (Some sb) (record (Called operation) w)).
Proof. exists (Some sb), (hosted w). by destruct w. Qed.

Lemma hosted_trace_request operation w sb s :
  hosted_trace operation w
    (set_hosted s (set_supabase (Some sb) (record (Called operation) w))).
Proof. by exists (Some sb), s. Qed.

Lemma insert_client_hosted_trace w name address phone :
  hosted_mode w = true ->
  hosted_trace "insert_client" w
    (insert_client str_datetime iso_datetime name address phone w).2.
Proof.
  intros Hmode. unfold insert_client, bind at 1 2, modify, read.
  change (hosted_mode (record (Called "insert_client") w)) with (hosted_mode w).
  rewrite Hmode. unfold bind at 1.
  destruct (init_supabase _) as [[e|sb] w1] eqn:Hsb;
    apply init_supabase_world in Hsb.
  - destruct Hsb as (-> & _). apply hosted_trace_start.
  - subst w1. unfold bind at 1. rewrite execute_run.
    destruct (Supabase.execute _ _ _) as [[e|res] s]; simpl.
    + apply hosted_trace_request.
    + unfold bind at 1. rewrite unwrap_data_run.
      destruct (negb _).
      * unfold bind at 1. rewrite unwrap_error_run.
        destruct (Supabase.res_shape res), (truthy (Supabase.res_error res));
          apply hosted_trace_request.
      * unfold bind at 1, first_row.
        destruct (match Supabase.res_shape res with
                  | Supabase.ObjectShape => _
                  | Supabase.DictShape => _
                  end) as [[|row rest]|]; apply hosted_trace_request.
Qed.

Lemma get_clients_hosted_trace w limit :
  hosted_mode w = true ->
  hosted_trace "get_clients" w
    (get_clients str_datetime iso_datetime limit w).2.
Proof.
  intros Hmode. unfold get_clients, bind at 1 2, modify, read.
  change (hosted_mode (record (Called "get_clients") w)) with (hosted_mode w).
  rewrite Hmode. unfold bind at 1.
  destruct (init_supabase _) as [[e|sb] w1] eqn:Hsb;
    apply init_supabase_world in Hsb.
  - destruct Hsb as (-> & _). apply hosted_trace_start.
  - subst w1. unfold bind at 1. rewrite execute_run.
    destruct (Supabase.execute _ _ _) as [[e|res] s]; simpl.
    + apply hosted_trace_request.
    + unfold bind at 1. rewrite unwrap_data_run.
      destruct (match Supabase.res_shape res with
                | Supabase.ObjectShape => _
                | Supabase.DictShape => _
                end) as [rows|]; [apply hosted_trace_request|].
      unfold bind at 1. rewrite unwrap_error_run.
      destruct (Supabase.res_shape res), (truthy (Supabase.res_error res));
        apply hosted_trace_request.
Qed.

Lemma create_clients_table_hosted_trace w :
  hosted_mode w = true ->
  hosted_trace "create_clients_table" w
    (create_clients_table iso_datetime w).2.
Proof.
  intros Hmode. unfold create_clients_table, bind at 1 2, modify, read.
  change (hosted_mode (record (Called "create_clients_table") w))
    with (hosted_mode w).
  rewrite Hmode. unfold bind at 1.
  destruct (init_supabase _) as [[e|sb] w1] eqn:Hsb;
    apply init_supabase_world in Hsb.
  - destruct Hsb as (-> & _). apply hosted_trace_start.
  - subst w1. unfold try_except, bind at 1. rewrite execute_run.
    destruct (Supabase.execute _ _ _) as [[e|res] s]; simpl;
      apply hosted_trace_request.
Qed.

Lemma hosted_trace_direct_side operation w w' :
  hosted_trace operation w w' -> direct_side_kept w w'.
Proof. intros (sb & s & ->). by destruct w. Qed.

(** A statement run between [get_conn] and [put_conn] leaves the hosted
    side alone, and changes the database only as the statement says. *)
Lemma scoped_statement_hosted_side {A B}
    (stmt : Pg.t -> string + (A * Pg.t)) (f : A -> B) w r w' :
  (do conn <- get_conn;
   try_finally (do x <- on_postgres stmt; ret (f x)) (put_conn conn)) w
    = (r, w') ->
  hosted_side_kept w w' /\ hosted_mode w' = hosted_mode w /\
  (postgres w' = postgres w \/
   exists a, stmt (postgres w) = inr (a, postgres w')).
Proof.
  intros Hrun.
  apply scoped_statement in Hrun
    as [(e & -> & Hget)|(c & w1 & w2 & Hget & Hput & Hstmt)].
  - apply get_conn_raised in Hget as (_ & _ & Hdb & Hh & Hc).
    split; [split; [apply Hc|exact Hh]|].
    split; [by apply same_config_hosted_mode|by left].
  - apply get_conn_returned in Hget as (_ & _ & _ & _ & Hdb1 & Hh1 & Hc1).
    apply put_conn_frame in Hput as (Hdb2 & Hh2 & Hc2).
    assert (Hw2 : hosted w2 = hosted w1 /\ same_config w1 w2 /\
                  (postgres w2 = postgres w \/
                   exists a, stmt (postgres w) = inr (a, postgres w2))).
    { destruct (stmt (postgres w)) as [msg|[a db']] eqn:Hs;
        destruct Hstmt as [_ ->].
      - split; [reflexivity|]. split; [apply same_config_refl|by left].
      - split; [by destruct w1|]. split; [by destruct w1|].
        right. exists a. by destruct w1. }
    destruct Hw2 as (Hh & Hc & Hdb).
    pose proof (same_config_trans _ _ _ Hc1 (same_config_trans _ _ _ Hc Hc2))
      as Hcfg.
    split; [split; [apply Hcfg|congruence]|].
    split; [by apply same_config_hosted_mode|].
    rewrite Hdb2. exact Hdb.
Qed.

(** X2.  The two backends never mix.  With the hosted service configured,
    [create_clients_table], [insert_client] and [get_clients] leave the pool
    and the database server as they found them; without it, they leave the
    cached client and the hosted service as they found them.  This holds
    for every state and every argument, whether the call returns or
    raises. *)
Theorem backends_do_not_mix w name address phone limit :
  (hosted_mode w = true ->
   direct_side_kept w (create_clients_table iso_datetime w).2 /\
   direct_side_kept w
     (insert_client str_datetime iso_datetime name address phone w).2 /\
   direct_side_kept w (get_clients str_datetime iso_datetime limit w).2) /\
  (hosted_mode w = false ->
   hosted_side_kept w (create_clients_table iso_datetime w).2 /\
   hosted_side_kept w
     (insert_client str_datetime iso_datetime name address phone w).2 /\
   hosted_side_kept w (get_clients str_datetime iso_datetime limit w).2).
Proof.
  split; intros Hmode.
  - split; [|split]; eapply hosted_trace_direct_side.
    + by apply create_clients_table_hosted_trace.
    + by apply insert_client_hosted_trace.
    + by apply get_clients_hosted_trace.
  - assert (Hrec : forall operation w',
              hosted_side_kept (record (Called operation) w) w' ->
              hosted_side_kept w w') by (intros ? ? [? ?]; by destruct w).
    split; [|split].
    + unfold create_clients_table, bind at 1 2, modify, read.
      change (hosted_mode (record (Called "create_clients_table") w))
        with (hosted_mode w).
      rewrite Hmode. eapply Hrec.
      match goal with |- context [?prog (record ?e w)] =>
        destruct (prog (record e w)) as [r w'] eqn:Hrun end.
      by apply (scoped_statement_hosted_side _ (fun _ => true)) in Hrun as [? _].
    + unfold insert_client, bind at 1 2, modify, read.
      change (hosted_mode (record (Called "insert_client") w))
        with (hosted_mode w).
      rewrite Hmode. eapply Hrec.
      match goal with |- context [?prog (record ?e w)] =>
        destruct (prog (record e w)) as [r w'] eqn:Hrun end.
      by apply scoped_statement_hosted_side in Hrun as [? _].
    + unfold get_clients, bind at 1 2, modify, read.
      change (hosted_mode (record (Called "get_clients") w))
        with (hosted_mode w).
      rewrite Hmode. eapply Hrec.
      match goal with |- context [?prog (record ?e w)] =>
        destruct (prog (record e w)) as [r w'] eqn:Hrun end.
      by apply scoped_statement_hosted_side in Hrun as [? _].
Qed.

(** The state of the service after a request that only reads. *)
Lemma select_keeps_service req s :
  (forall name address phone, req <> Supabase.Insert name address phone) ->
  (Supabase.execute iso_datetime req s).2 = s.
Proof.
  intros Hread. unfold Supabase.execute.
  destruct (Supabase.failing s) as [[msg|d e]|]; [reflexivity..|].
  destruct req as [|name address phone|limit].
  - by destruct (Pg.select_any 1 (Supabase.db s)).
  - by destruct (Hread name address phone).
  - by destruct (Pg.select_recent limit (Supabase.db s)).
Qed.

(** X3.  [get_clients] only reads: for every state and every limit,
    negative ones included, and whether it returns or raises, the database
    server and the hosted service are afterwards exactly as before. *)
Theorem get_clients_only_reads w limit :
  postgres (get_clients str_datetime iso_datetime limit w).2 = postgres w /\
  hosted (get_clients str_datetime iso_datetime limit w).2 = hosted w.
Proof.
  destruct (hosted_mode w) eqn:Hmode.
  - split.
    + eapply (hosted_trace_direct_side "get_clients").
      by apply get_clients_hosted_trace.
    + unfold get_clients, bind at 1 2, modify, read.
      change (hosted_mode (record (Called "get_clients") w))
        with (hosted_mode w).
      rewrite Hmode. unfold bind at 1.
      destruct (init_supabase _) as [[e|sb] w1] eqn:Hsb;
        apply init_supabase_world in Hsb.
      * destruct Hsb as (-> & _). by destruct w.
      * subst w1. unfold bind at 1. rewrite execute_run.
        rewrite select_keeps_service by discriminate.
        destruct (Supabase.execute _ _ _) as [[e|res] s]; simpl.
        { by destruct w. }
        unfold bind at 1. rewrite unwrap_data_run.
        destruct (match Supabase.res_shape res with
                  | Supabase.ObjectShape => _
                  | Supabase.DictShape => _
                  end) as [rows|]; [by destruct w|].
        unfold bind at 1. rewrite unwrap_error_run.
        destruct (Supabase.res_shape res), (truthy (Supabase.res_error res));
          by destruct w.
  - destruct (get_clients _ _ _ w) as [r w'] eqn:Hrun. simpl.
    revert Hrun. unfold get_clients, bind at 1 2, modify, read.
    change (hosted_mode (record (Called "get_clients") w))
      with (hosted_mode w).
    rewrite Hmode. intros Hrun.
    apply scoped_statement_hosted_side in Hrun as ([_ Hh] & _ & Hdb).
    split; [|rewrite Hh; by destruct w].
    destruct Hdb as [Hdb|[rows Hdb]]; [rewrite Hdb; by destruct w|].
    change (postgres (record (Called "get_clients") w)) with (postgres w) in Hdb.
    destruct (Pg.select_recent _ (postgres w)); [discriminate|].
    by injection Hdb as _ <-.
Qed.

End HostedSteps.

(** ** The table check and the startup *)

Section TableCheck.

Import dbcenter app Steps.

Variable str_datetime : Z -> string.
Variable iso_datetime : Z -> string.

Lemma create_clients_table_hosted_run w :
  hosted_mode w = true -> client_at_hand w ->
  exists sb,
    create_clients_table iso_datetime w =
      (inr match (Supabase.execute iso_datetime Supabase.SelectIdLimit1
                    (hosted w)).1 with
           | inl _ => false
           | inr _ => true
           end,
       set_supabase (Some sb) (record (Called "create_clients_table") w)).
Proof.
  intros Hmode Hclient.
  unfold create_clients_table, bind at 1 2, modify, read.
  change (hosted_mode (record (Called "create_clients_table") w))
    with (hosted_mode w).
  rewrite Hmode. unfold bind at 1.
  destruct (init_supabase_ready (record (Called "create_clients_table") w))
    as [sb Hsb]; [by destruct w|by destruct w|].
  rewrite Hsb. exists sb.
  unfold try_except, bind at 1. rewrite execute_run.
  rewrite select_keeps_service by discriminate.
  change (hosted (set_supabase _ (record _ w))) with (hosted w).
  destruct (Supabase.execute _ _ _) as [[e|res] s]; simpl; unfold ret;
    do 2 f_equal; by destruct w.
Qed.

(** X4.  In hosted mode, once the client is at hand, the table check never
    raises and never changes the service.  It answers [False] exactly when
    the request itself raises: the service raises, or is healthy but down or
    without the table.  A reply is never looked into, so one that carries an
    error and no data still counts as [True]. *)
Theorem hosted_table_check_outcome w :
  hosted_mode w = true -> client_at_hand w ->
  exists b w',
    create_clients_table iso_datetime w = (inr b, w') /\
    hosted w' = hosted w /\
    match Supabase.failing (hosted w) with
    | Some (Supabase.Raises _) => b = false
    | Some (Supabase.Replies _ _) => b = true
    | None =>
        b = true <->
        Pg.up (Supabase.db (hosted w)) = true /\
        is_Some (Pg.clients (Supabase.db (hosted w)))
    end.
Proof.
  intros Hmode Hclient.
  destruct (create_clients_table_hosted_run w Hmode Hclient) as [sb Hrun].
  eexists _, _. split; [exact Hrun|]. split; [by destruct w|].
  unfold Supabase.execute.
  destruct (Supabase.failing (hosted w)) as [[msg|d e]|]; [done..|].
  unfold Pg.select_any.
  destruct (Pg.up (Supabase.db (hosted w))); simpl.
  - destruct (Pg.clients (Supabase.db (hosted w))); simpl.
    + split; [by eauto|done].
    + split; [done|]. by intros [_ [? ?]].
  - split; [done|]. by intros [? _].
Qed.

Lemma create_clients_table_direct w r w' :
  hosted_mode w = false -> can_connect w ->
  create_clients_table iso_datetime w = (r, w') ->
  r = inr true /\
  postgres w' =
    Pg.mk true (Some (default [] (Pg.clients (postgres w))))
          (Pg.serial (postgres w)) (Pg.now (postgres w)) /\
  used_of w' = used_of w /\ maxconn_of w' = maxconn_of w /\
  is_Some (_pool w') /\ hosted_mode w' = false.
Proof.
  intros Hmode (Hup & Hroom & Hdrv).
  unfold create_clients_table, bind at 1 2, modify, read.
  change (hosted_mode (record (Called "create_clients_table") w))
    with (hosted_mode w).
  rewrite Hmode.
  set (w0 := record (Called "create_clients_table") w).
  intros Hrun.
  apply (scoped_statement _ (fun _ => true)) in Hrun
    as [(e & -> & Hget)|(c & w1 & w2 & Hget & Hput & Hstmt)].
  { destruct (get_conn_ready w0) as (c & w1 & Hok); try by destruct w.
    congruence. }
  change (postgres w0) with (postgres w) in Hstmt.
  unfold Pg.create_table in Hstmt. rewrite Hup in Hstmt.
  set (db' := Pg.mk true _ _ _) in Hstmt.
  destruct Hstmt as [-> ->]. split; [reflexivity|].
  apply get_conn_returned in Hget as (Hu1 & _ & Hm1 & _ & _ & _ & Hc1).
  assert (Hset : used_of (set_postgres db' w1) = used_of w1 /\
                 maxconn_of (set_postgres db' w1) = maxconn_of w1 /\
                 hosted_mode (set_postgres db' w1) = hosted_mode w1 /\
                 postgres (set_postgres db' w1) = db')
    by (by destruct w1).
  destruct Hset as (Hu2 & Hm2 & Hh2 & Hdb2).
  destruct (put_conn_checked_out c (set_postgres db' w1))
    as (w3 & Hput' & Hu3 & Hsome & Hm3 & _ & Hdb3 & _ & Hc3).
  { exists (used_of w0). congruence. }
  rewrite Hput in Hput'. injection Hput' as <-.
  assert (Hw0 : hosted_mode w0 = hosted_mode w /\ used_of w0 = used_of w /\
                maxconn_of w0 = maxconn_of w) by (by destruct w).
  destruct Hw0 as (Hh0 & Hu0 & Hm0).
  split; [rewrite Hdb3, Hdb2; reflexivity|].
  split; [congruence|]. split; [congruence|].
  split; [exact Hsome|].
  rewrite (same_config_hosted_mode _ _ Hc3), Hh2,
    (same_config_hosted_mode _ _ Hc1), Hh0. exact Hmode.
Qed.

Lemma can_connect_after w w' :
  can_connect w -> postgres w' = postgres w \/ Pg.up (postgres w') = true ->
  used_of w' = used_of w -> maxconn_of w' = maxconn_of w ->
  is_Some (_pool w') -> can_connect w'.
Proof.
  intros (Hup & Hroom & _) Hdb Hu Hm Hsome. split; [|split].
  - destruct Hdb as [->|]; auto.
  - rewrite outstanding_used_of in *. by rewrite Hu, Hm.
  - intros Hnone. rewrite Hnone in Hsome. by destruct Hsome.
Qed.

(** X5.  In direct mode, when a connection can be had, the table check
    returns [True], leaves a table behind (an empty one if there was none,
    the rows that were there otherwise), gives its connection back, and can
    be repeated with no further effect on the database. *)
Theorem direct_table_check_idempotent w :
  hosted_mode w = false -> can_connect w ->
  exists w1 w2,
    create_clients_table iso_datetime w = (inr true, w1) /\
    Pg.clients (postgres w1) = Some (stored w) /\
    outstanding w1 = outstanding w /\
    create_clients_table iso_datetime w1 = (inr true, w2) /\
    postgres w2 = postgres w1.
Proof.
  intros Hmode Hconn.
  destruct (create_clients_table iso_datetime w) as [r w1] eqn:Hfirst.
  destruct (create_clients_table_direct _ _ _ Hmode Hconn Hfirst)
    as (-> & Hdb1 & Hu1 & Hm1 & Hsome1 & Hmode1).
  assert (Hconn1 : can_connect w1).
  { apply (can_connect_after w); auto. right. by rewrite Hdb1. }
  destruct (create_clients_table iso_datetime w1) as [r w2] eqn:Hsecond.
  destruct (create_clients_table_direct _ _ _ Hmode1 Hconn1 Hsecond)
    as (-> & Hdb2 & _).
  exists w1, w2. split; [reflexivity|]. split.
  { rewrite Hdb1. unfold stored, backend. by rewrite Hmode. }
  split; [by rewrite !outstanding_used_of, Hu1|].
  split; [exact Hsecond|]. rewrite Hdb2, Hdb1. reflexivity.
Qed.

Lemma init_pool_can_connect w r w1 :
  can_connect w -> init_pool None None w = (r, w1) ->
  r = inr tt /\ can_connect w1 /\ is_Some (_pool w1) /\
  postgres w1 = postgres w /\ hosted_mode w1 = hosted_mode w /\
  outstanding w1 = outstanding w /\ hosted w1 = hosted w /\
  _supabase w1 = _supabase w /\
  supabase_installed w1 = supabase_installed w /\ log w1 = log w.
Proof.
  intros (Hup & Hroom & Hdrv).
  destruct (_pool w) as [p|] eqn:Hpool.
  - rewrite init_pool_kept by (by rewrite Hpool).
    intros [= <- <-]. rewrite Hpool.
    repeat split; auto; try (by eexists). by rewrite Hpool.
  - rewrite (init_pool_builds w Hpool (Hdrv eq_refl) Hup).
    intros [= <- <-]. unfold can_connect, outstanding, maxconn_of.
    rewrite Hpool. destruct w; simpl in *.
    repeat split; auto; try lia; try (by eexists).
Qed.

(** X6.  In direct mode, when a connection can be had, [startup_event]
    succeeds and leaves the process ready to serve: a pool exists, no
    connection is checked out beyond those that were, the table exists and
    holds the rows it held. *)
Theorem direct_startup_leaves_ready w :
  hosted_mode w = false -> can_connect w ->
  exists w',
    startup_event iso_datetime w = (inr tt, w') /\
    ready w' /\ is_Some (_pool w') /\
    stored w' = stored w /\ outstanding w' = outstanding w.
Proof.
  intros Hmode Hconn. unfold startup_event, bind at 1.
  destruct (init_pool None None w) as [r w1] eqn:Hinit.
  destruct (init_pool_can_connect _ _ _ Hconn Hinit)
    as (-> & Hconn1 & Hsome1 & Hdb1 & Hmode1 & Hout1 & _).
  rewrite Hmode in Hmode1. unfold bind at 1.
  destruct (create_clients_table iso_datetime w1) as [r w2] eqn:Htable.
  destruct (create_clients_table_direct _ _ _ Hmode1 Hconn1 Htable)
    as (-> & Hdb2 & Hu2 & Hm2 & Hsome2 & Hmode2).
  exists w2. split; [reflexivity|].
  assert (Hback : backend w2 = postgres w2)
    by (unfold backend; by rewrite Hmode2).
  assert (Hout2 : outstanding w2 = outstanding w)
    by (rewrite <- Hout1, !outstanding_used_of; congruence).
  split; [|split; [exact Hsome2|split; [|exact Hout2]]].
  - unfold ready. rewrite Hback, Hmode2, Hdb2. simpl.
    split; [reflexivity|]. split; [by eexists|]. split.
    + destruct Hconn1 as (_ & Hroom1 & _).
      rewrite outstanding_used_of in *. by rewrite Hu2, Hm2.
    + intros Hnone. rewrite Hnone in Hsome2. by destruct Hsome2.
  - unfold stored. rewrite Hback, Hdb2. simpl.
    unfold backend. by rewrite Hmode, Hdb1.
Qed.

(** X7.  In hosted mode the table check cannot stop the startup: when the
    pool exists or can be built and the client is at hand, [startup_event]
    succeeds whatever the service does (raising, answering with an error,
    down, without the table), and leaves the service as it was. *)
Theorem hosted_startup_survives_table_check w :
  hosted_mode w = true -> client_at_hand w ->
  is_Some (_pool w) \/
    (psycopg2_installed w = true /\ Pg.up (postgres w) = true) ->
  exists w',
    startup_event iso_datetime w = (inr tt, w') /\ hosted w' = hosted w.
Proof.
  intros Hmode Hclient Hpool. unfold startup_event, bind at 1.
  assert (Hinit : exists w1,
            init_pool None None w = (inr tt, w1) /\
            hosted_mode w1 = true /\ client_at_hand w1 /\
            hosted w1 = hosted w).
  { destruct (_pool w) as [p|] eqn:Hp.
    - exists w. rewrite init_pool_kept by (by rewrite Hp). auto.
    - destruct Hpool as [[? [=]]|[Hdrv Hup]].
      rewrite (init_pool_builds w Hp Hdrv Hup). eexists. split; [reflexivity|].
      by destruct w. }
  destruct Hinit as (w1 & -> & Hmode1 & Hclient1 & Hh1).
  unfold bind at 1.
  destruct (create_clients_table_hosted_run w1 Hmode1 Hclient1) as [sb Hrun].
  rewrite Hrun. eexists. split; [reflexivity|].
  rewrite <- Hh1. by destruct w1.
Qed.

End TableCheck.

(** ** What the hosted replies turn into *)

Section HostedReplies.

Import dbcenter Steps.

Variable str_datetime : Z -> string.
Variable iso_datetime : Z -> string.

(** X8.  In hosted mode a listing whose reply has no [data] raises: a
    [RuntimeError] made of the fixed prefix and [str] of the reported error
    when the reply reports one or is dict-shaped, and the [AttributeError]
    of the missing [get] for an object-shaped reply that reports none.  An
    exception raised by the request itself passes through unchanged. *)
Theorem listing_failure_reported w limit sb w1 :
  hosted_mode w = true ->
  init_supabase (record (Called "get_clients") w) = (inr sb, w1) ->
  (forall e w2,
     execute iso_datetime (Supabase.SelectAllRecent (default 100 limit)) w1
       = (inl e, w2) ->
     get_clients str_datetime iso_datetime limit w = (inl e, w2)) /\
  (forall res w2,
     execute iso_datetime (Supabase.SelectAllRecent (default 100 limit)) w1
       = (inr res, w2) ->
     Supabase.res_data res = None ->
     get_clients str_datetime iso_datetime limit w =
       (inl match Supabase.res_shape res,
                  truthy (Supabase.res_error res) with
            | Supabase.ObjectShape, false =>
                AttributeError "object has no attribute 'get'"
            | _, _ =>
                RuntimeError
                  ("Falha ao listar clientes no Supabase: " +:+
                   str str_datetime (Supabase.res_error res))
            end,
        w2)).
Proof.
  intros Hmode Hsb. split.
  - intros e w2 Hex.
    unfold get_clients, bind at 1 2, modify, read.
    change (hosted_mode (record (Called "get_clients") w)) with (hosted_mode w).
    rewrite Hmode. unfold bind at 1. rewrite Hsb.
    unfold bind at 1. by rewrite Hex.
  - intros res w2 Hex Hdata.
    rewrite (get_clients_answered _ _ _ _ _ _ _ _ Hmode Hsb Hex).
    unfold bind at 1. rewrite unwrap_data_run, Hdata.
    assert (match Supabase.res_shape res with
            | Supabase.ObjectShape => if truthy_data None then None else None
            | Supabase.DictShape => None
            end = (None : option (list dict))) as ->
      by (by destruct (Supabase.res_shape res)).
    unfold bind at 1. rewrite unwrap_error_run.
    destruct (Supabase.res_shape res) eqn:Hshape;
      destruct (truthy (Supabase.res_error res)); reflexivity.
Qed.

(** X9.  In hosted mode a listing returns the reply's [data] as it is, in
    the order given, whenever it is a non-empty list, or any list in a
    dict-shaped reply; an [error] reported beside it is never looked at. *)
Theorem listing_returns_data_as_is w limit sb w1 res w2 rows :
  hosted_mode w = true ->
  init_supabase (record (Called "get_clients") w) = (inr sb, w1) ->
  execute iso_datetime (Supabase.SelectAllRecent (default 100 limit)) w1
    = (inr res, w2) ->
  Supabase.res_data res = Some rows ->
  rows <> [] \/ Supabase.res_shape res = Supabase.DictShape ->
  get_clients str_datetime iso_datetime limit w = (inr rows, w2).
Proof.
  intros Hmode Hsb Hex Hdata Hcase.
  rewrite (get_clients_answered _ _ _ _ _ _ _ _ Hmode Hsb Hex).
  unfold bind at 1. rewrite unwrap_data_run, Hdata.
  destruct (Supabase.res_shape res); [|reflexivity].
  destruct rows; [|reflexivity].
  by destruct Hcase.
Qed.

(** X10.  In hosted mode an insert whose reply carries rows returns the
    [id] and [created_at] of the first of them, [None] standing for a
    missing one; the other rows, the other columns and any [error] are
    ignored. *)
Theorem insert_returns_first_row w name address phone sb w1 res w2 :
  hosted_mode w = true ->
  init_supabase (record (Called "insert_client") w) = (inr sb, w1) ->
  execute iso_datetime (Supabase.Insert name address phone) w1 = (inr res, w2) ->
  truthy_data (Supabase.res_data res) = true ->
  exists row rest,
    Supabase.res_data res = Some (row :: rest) /\
    insert_client str_datetime iso_datetime name address phone w =
      (inr {[ "id" := get row "id"; "created_at" := get row "created_at" ]},
       w2).
Proof.
  intros Hmode Hsb Hex Hdata.
  destruct (Supabase.res_data res) as [[|row rest]|] eqn:Hrows;
    try discriminate.
  exists row, rest. split; [reflexivity|].
  rewrite (insert_client_answered _ _ _ _ _ _ _ _ _ _ Hmode Hsb Hex).
  unfold bind at 1. rewrite unwrap_data_run, Hrows.
  by destruct (Supabase.res_shape res).
Qed.

End HostedReplies.

(** ** The routes, outcome by outcome *)

Section RouteOutcomes.

Import dbcenter app Steps.

Variable is_space : ascii -> bool.
Variable str_datetime : Z -> string.
Variable iso_datetime : Z -> string.

Lemma execute_insert_rows name address phone s res s' :
  Supabase.execute iso_datetime (Supabase.Insert name address phone) s
    = (inr res, s') ->
  exists rs,
    Supabase.res_data res
      = option_map (map (Supabase.json_row iso_datetime)) rs.
Proof.
  unfold Supabase.execute.
  destruct (Supabase.failing s) as [[msg|d e]|].
  - discriminate.
  - intros [= <- _]. by exists d.
  - destruct (Pg.insert_returning _ _ _ _) as [msg|[[i ts] db']];
      [discriminate|].
    intros [= <- _]. by eexists (Some [_]).
Qed.

(** Whatever [insert_client] returns holds an integer [id] and some
    [created_at]. *)
Lemma insert_client_result w name address phone inserted w' :
  insert_client str_datetime iso_datetime name address phone w
    = (inr inserted, w') ->
  exists i c,
    inserted !! "id" = Some (VInt i) /\ inserted !! "created_at" = Some c.
Proof.
  unfold insert_client, bind at 1 2, modify, read.
  change (hosted_mode (record (Called "insert_client") w)) with (hosted_mode w).
  destruct (hosted_mode w).
  - unfold bind at 1.
    destruct (init_supabase _) as [[e|sb] w1]; [discriminate|].
    unfold bind at 1. rewrite execute_run.
    destruct (Supabase.execute _ _ _) as [[e|res] s] eqn:Hex;
      [discriminate|].
    apply execute_insert_rows in Hex as [rs Hrs]. simpl.
    unfold bind at 1. rewrite unwrap_data_run, Hrs.
    destruct rs as [[|r rest]|]; simpl.
    + destruct (Supabase.res_shape res) eqn:Hshape; simpl;
        unfold bind at 1; rewrite unwrap_error_run, Hshape;
        try destruct (truthy (Supabase.res_error res)); discriminate.
    + assert (match Supabase.res_shape res with
              | Supabase.ObjectShape | Supabase.DictShape =>
                  Some (Supabase.json_row iso_datetime r
                        :: map (Supabase.json_row iso_datetime) rest)
              end = Some (Supabase.json_row iso_datetime r
                          :: map (Supabase.json_row iso_datetime) rest)) as ->
        by (by destruct (Supabase.res_shape res)).
      simpl. unfold bind at 1, ret. intros [= <- _].
      by eexists _, _.
    + destruct (Supabase.res_shape res) eqn:Hshape; simpl;
        unfold bind at 1; rewrite unwrap_error_run, Hshape;
        try destruct (truthy (Supabase.res_error res)); discriminate.
  - intros Hrun.
    apply scoped_statement in Hrun
      as [(e & [=] & _)|(c & w1 & w2 & _ & _ & Hstmt)].
    destruct (Pg.insert_returning _ _ _ _) as [msg|[[i ts] db']];
      destruct Hstmt as [[= ->] _].
    by eexists _, _.
Qed.

(** X11.  What an accepted create request is answered with.  When the
    adapter raises, the answer is a 500 whose detail is the text of that
    exception.  When the adapter returns, the answer is always a 200: it
    carries the payload as validated, the backend's [id], and [str] of the
    backend's [created_at] (the text [None] when there is none). *)
Theorem create_route_outcome b payload w :
  parse_ClientIn is_space b = Some payload ->
  (forall e w',
     insert_client str_datetime iso_datetime
       (name payload) (address payload) (phone payload) w = (inl e, w') ->
     post_clients is_space str_datetime iso_datetime b w
       = (HttpError 500 (message e), w')) /\
  (forall inserted w',
     insert_client str_datetime iso_datetime
       (name payload) (address payload) (phone payload) w
       = (inr inserted, w') ->
     exists i c,
       inserted !! "id" = Some (VInt i) /\
       inserted !! "created_at" = Some c /\
       post_clients is_space str_datetime iso_datetime b w
         = (Http200 (mk_ClientOut payload i (dbcenter.str str_datetime c)),
            w')).
Proof.
  intros Hparse. split.
  - intros e w' Hrun. unfold post_clients. rewrite Hparse.
    unfold respond, create_client, try_except, bind at 1. by rewrite Hrun.
  - intros inserted w' Hrun.
    destruct (insert_client_result _ _ _ _ _ _ Hrun) as (i & c & Hi & Hc).
    exists i, c. split; [exact Hi|]. split; [exact Hc|].
    unfold post_clients. rewrite Hparse.
    unfold respond, create_client, try_except, bind at 1. rewrite Hrun.
    unfold bind at 1, getitem at 1. rewrite Hi.
    unfold ret at 1, bind at 1, getitem. rewrite Hc.
    unfold ret at 1 2. by rewrite (parse_created is_space b payload _ _ Hparse).
Qed.





End RouteOutcomes.

(** ** The list route on rows it can show *)

Section ListRoute.

Import dbcenter app Steps.

Variable is_space : ascii -> bool.
Variable str_datetime : Z -> string.
Variable iso_datetime : Z -> string.










End ListRoute.

(** ** Direct mode: the pool's bound and the transaction *)

Section DirectMore.

Import dbcenter Steps.

Variable str_datetime : Z -> string.
Variable iso_datetime : Z -> string.

Lemma remove_first_length c l :
  existsb (Nat.eqb c) l = true ->
  S (length (Pool.remove_first c l)) = length l.
Proof.
  induction l as [|x l IH]; simpl; [discriminate|].
  rewrite (Nat.eqb_sym c x). destruct (x =? c)%nat; simpl; [reflexivity|].
  intros H. by rewrite IH.
Qed.

(** X15.  The pool is never overdrawn.  Starting from a pool within its
    bound (or from none), [get_conn] and [put_conn] keep it within its bound,
    so that no more than [maxconn] connections (5 for the pool that
    [get_conn] builds) are ever checked out; and when all of them are,
    [get_conn] raises the pool's own error and changes nothing. *)
Theorem pool_never_overdrawn w :
  pool_sound w ->
  (forall r w',
     get_conn w = (r, w') ->
     pool_sound w' /\ (outstanding w' <= maxconn_of w')%nat) /\
  (forall c r w', put_conn c w = (r, w') -> pool_sound w') /\
  (is_Some (_pool w) -> outstanding w = maxconn_of w ->
   get_conn w = (inl (PoolError "connection pool exhausted"), w)).
Proof.
  intros Hsound. split; [|split].
  - intros r w'. unfold pool_sound in *. run_world.
    destruct w as [url key sb [p|] si pi db h l]; simpl in *.
    + unfold Pool.getconn. destruct (Pool.idle p) as [|c rest] eqn:Hidle; simpl.
      * destruct (Nat.eqb_spec (length (Pool.used p)) (Pool.maxconn p)); simpl.
        { intros [= <- <-]. simpl. rewrite Hidle. simpl. lia. }
        destruct (Pg.up db); simpl; intros [= <- <-]; simpl;
          rewrite ?Hidle; simpl in *; lia.
      * intros [= <- <-]. simpl in *. lia.
    + destruct pi; simpl; [|intros [= <- <-]; simpl; lia].
      unfold Pool.SimpleConnectionPool. destruct (Pg.up db); simpl.
      * intros [= <- <-]. simpl. lia.
      * intros [= <- <-]. simpl. lia.
  - intros c r w'. unfold pool_sound in *. run_world.
    destruct w as [url key sb [p|] si pi db h l]; simpl in *;
      [|by intros [= <- <-]].
    unfold Pool.putconn.
    destruct (existsb (Nat.eqb c) (Pool.used p)) eqn:Hin; simpl;
      [|by intros [= <- <-]].
    intros [= <- <-]. simpl.
    pose proof (remove_first_length c _ Hin).
    destruct (length (Pool.idle p) <? Pool.minconn p)%nat; simpl; lia.
  - intros [p Hp] Hfull. unfold pool_sound in *. run_world.
    destruct w as [url key sb [p'|] si pi db h l]; simpl in *; [|discriminate].
    unfold Pool.getconn.
    destruct (Pool.idle p') as [|c rest]; simpl in *; [|lia].
    by rewrite Hfull, Nat.eqb_refl.
Qed.

(** X16.  In direct mode an insert is all or nothing.  If [insert_client]
    raises, the database is as it was; if it returns, the table has grown by
    exactly one row, which carries the values passed in, the [id] returned
    and a timestamp. *)
Theorem direct_insert_all_or_nothing w name address phone r w' :
  hosted_mode w = false ->
  insert_client str_datetime iso_datetime name address phone w = (r, w') ->
  match r with
  | inl _ => postgres w' = postgres w
  | inr inserted =>
      exists table i t,
        Pg.clients (postgres w) = Some table /\
        Pg.clients (postgres w')
          = Some (table ++ [Pg.mk_row i name address phone (Some t)]) /\
        inserted !! "id" = Some (VInt i)
  end.
Proof.
  intros Hmode.
  unfold insert_client, bind at 1 2, modify, read.
  change (hosted_mode (record (Called "insert_client") w)) with (hosted_mode w).
  rewrite Hmode. intros Hrun.
  pose proof Hrun as Hcases.
  apply scoped_statement_hosted_side in Hrun as (_ & _ & Hdb).
  apply scoped_statement in Hcases
    as [(e & -> & Hget)|(c & w1 & w2 & Hget & Hput & Hstmt)].
  - apply get_conn_raised in Hget as (_ & _ & -> & _). by destruct w.
  - change (postgres (record (Called "insert_client") w))
      with (postgres w) in *.
    unfold Pg.insert_returning in *.
    destruct (Pg.up (postgres w)).
    + destruct (Pg.clients (postgres w)) as [table|].
      * destruct Hstmt as [-> ->].
        apply put_conn_frame in Hput as (-> & _).
        exists table, (Pg.serial (postgres w)), (Pg.now (postgres w)).
        split; [reflexivity|]. split; [by destruct w1|reflexivity].
      * destruct Hstmt as [-> ->].
        apply put_conn_frame in Hput as (-> & _).
        apply get_conn_returned in Hget as (_ & _ & _ & _ & -> & _).
        by destruct w.
    + destruct Hstmt as [-> ->].
      apply put_conn_frame in Hput as (-> & _).
      apply get_conn_returned in Hget as (_ & _ & _ & _ & -> & _).
      by destruct w.
Qed.

(** X17.  In direct mode the table check, too, gives back the connection it
    acquires exactly once, whether the statement succeeds or raises. *)
Theorem table_check_releases_connection w :
  hosted_mode w = false ->
  scoped_use "create_clients_table" w (create_clients_table iso_datetime w).
Proof.
  intros Hmode.
  unfold create_clients_table, bind at 1 2, modify, read.
  change (hosted_mode (record (Called "create_clients_table") w))
    with (hosted_mode w).
  rewrite Hmode.
  apply (called_then_scoped "create_clients_table" _ (fun _ => true)).
Qed.

End DirectMore.

(** ** The further properties at sample inputs *)

Module more_checks.

Import dbcenter app sample cases.

Lemma init_supabase_cached_witness :
  init_supabase
    (set_supabase (Some client)
       (hosted_on (healthy Supabase.ObjectShape empty_table)))
  = (inr client,
     set_supabase (Some client)
       (hosted_on (healthy Supabase.ObjectShape empty_table))).
Proof.
  destruct (init_supabase_cached
              (hosted_on (healthy Supabase.ObjectShape empty_table))
              client
              (set_supabase (Some client)
                 (hosted_on (healthy Supabase.ObjectShape empty_table)))
              eq_refl) as [Hagain _].
  exact Hagain.
Defined.

Lemma backends_do_not_mix_witness :
  direct_side_kept (hosted_on (healthy Supabase.ObjectShape three_clients))
    (insert_client str_datetime iso_datetime "Ana" None None
       (hosted_on (healthy Supabase.ObjectShape three_clients))).2 /\
  hosted_side_kept (direct three_clients)
    (get_clients str_datetime iso_datetime None (direct three_clients)).2.
Proof.
  split.
  - destruct (backends_do_not_mix str_datetime iso_datetime
                (hosted_on (healthy Supabase.ObjectShape three_clients))
                "Ana" None None None) as [Hhosted _].
    apply (Hhosted eq_refl).
  - destruct (backends_do_not_mix str_datetime iso_datetime
                (direct three_clients) "Ana" None None None) as [_ Hdirect].
    apply (Hdirect eq_refl).
Defined.

(** A reply with an error and no rows still reads as a table that is
    there. *)
Lemma hosted_table_check_outcome_witness :
  exists w',
    create_clients_table iso_datetime (hosted_on refusing) = (inr true, w') /\
    hosted w' = refusing.
Proof.
  destruct (hosted_table_check_outcome iso_datetime (hosted_on refusing))
    as (b & w' & Hrun & Hkept & Hb).
  - reflexivity.
  - by right.
  - simpl in Hb. subst b. by exists w'.
Defined.

Lemma direct_table_check_idempotent_witness :
  exists w1 w2,
    create_clients_table iso_datetime (direct no_table) = (inr true, w1) /\
    Pg.clients (postgres w1) = Some [] /\
    outstanding w1 = 0%nat /\
    create_clients_table iso_datetime w1 = (inr true, w2) /\
    postgres w2 = postgres w1.
Proof.
  apply (direct_table_check_idempotent iso_datetime (direct no_table)).
  - reflexivity.
  - unfold can_connect, outstanding, maxconn_of. simpl.
    split; [reflexivity|]. split; [lia|reflexivity].
Defined.

Lemma direct_startup_leaves_ready_witness :
  exists w',
    startup_event iso_datetime (direct no_table) = (inr tt, w') /\
    ready w' /\ is_Some (_pool w') /\
    stored w' = [] /\ outstanding w' = 0%nat.
Proof.
  apply (direct_startup_leaves_ready iso_datetime (direct no_table)).
  - reflexivity.
  - unfold can_connect, outstanding, maxconn_of. simpl.
    split; [reflexivity|]. split; [lia|reflexivity].
Defined.

(** The hosted table is missing, and the startup goes through. *)
Lemma hosted_startup_survives_table_check_witness :
  exists w',
    startup_event iso_datetime
      (hosted_on (healthy Supabase.ObjectShape no_table)) = (inr tt, w') /\
    hosted w' = healthy Supabase.ObjectShape no_table.
Proof.
  apply (hosted_startup_survives_table_check iso_datetime
           (hosted_on (healthy Supabase.ObjectShape no_table))).
  - reflexivity.
  - by right.
  - right. by split.
Defined.

Lemma listing_failure_reported_witness :
  (get_clients str_datetime iso_datetime None (hosted_on raising)).1
    = inl (APIError "timeout") /\
  (get_clients str_datetime iso_datetime None
     (hosted_on (silent Supabase.DictShape))).1
    = inl (RuntimeError "Falha ao listar clientes no Supabase: None") /\
  (get_clients str_datetime iso_datetime None
     (hosted_on (silent Supabase.ObjectShape))).1
    = inl (AttributeError "object has no attribute 'get'").
Proof.
  split; [|split].
  - destruct (listing_failure_reported str_datetime iso_datetime
                (hosted_on raising) None client
                (set_supabase (Some client)
                   (record (Called "get_clients") (hosted_on raising)))
                eq_refl eq_refl) as [Hraised _].
    by rewrite (Hraised (APIError "timeout") _ eq_refl).
  - destruct (listing_failure_reported str_datetime iso_datetime
                (hosted_on (silent Supabase.DictShape)) None client
                (set_supabase (Some client)
                   (record (Called "get_clients")
                      (hosted_on (silent Supabase.DictShape))))
                eq_refl eq_refl) as [_ Hnodata].
    by rewrite (Hnodata
                  (Supabase.mk_response Supabase.DictShape None VNone)
                  _ eq_refl eq_refl).
  - destruct (listing_failure_reported str_datetime iso_datetime
                (hosted_on (silent Supabase.ObjectShape)) None client
                (set_supabase (Some client)
                   (record (Called "get_clients")
                      (hosted_on (silent Supabase.ObjectShape))))
                eq_refl eq_refl) as [_ Hnodata].
    by rewrite (Hnodata
                  (Supabase.mk_response Supabase.ObjectShape None VNone)
                  _ eq_refl eq_refl).
Defined.

Lemma listing_returns_data_as_is_witness :
  (get_clients str_datetime iso_datetime None (hosted_on muddled)).1 = inr [].
Proof.
  by rewrite (listing_returns_data_as_is str_datetime iso_datetime
                (hosted_on muddled) None client
                (set_supabase (Some client)
                   (record (Called "get_clients") (hosted_on muddled)))
                (Supabase.mk_response Supabase.DictShape (Some [])
                   (VStr "warning"))
                _ [] eq_refl eq_refl eq_refl eq_refl
                (or_intror eq_refl)).
Defined.

Lemma insert_returns_first_row_witness :
  (insert_client str_datetime iso_datetime "Ana" None None
     (hosted_on confused)).1
  = inr {[ "id" := VInt 7; "created_at" := VStr "T50" ]}.
Proof.
  destruct (insert_returns_first_row str_datetime iso_datetime
              (hosted_on confused) "Ana" None None client
              (set_supabase (Some client)
                 (record (Called "insert_client") (hosted_on confused)))
              (Supabase.mk_response Supabase.ObjectShape
                 (Some [Supabase.json_row iso_datetime
                          (Pg.mk_row 7 "Zeca" (Some "Av. 9") None (Some 50))])
                 VNone)
              (set_hosted confused
                 (set_supabase (Some client)
                    (record (Called "insert_client") (hosted_on confused))))
              eq_refl eq_refl eq_refl eq_refl)
    as (row & rest & Hdata & Hrun).
  rewrite Hrun. injection Hdata as <- _. reflexivity.
Defined.

(** A create request against a database without the table, and one against
    the three clients. *)
Lemma create_route_outcome_witness :
  (post_clients is_space str_datetime iso_datetime padded (direct no_table)).1
    = HttpError 500 "relation clients does not exist" /\
  post_clients is_space str_datetime iso_datetime padded (direct three_clients)
    = (Http200 ana_created, with_ana).
Proof.
  split.
  - destruct (create_route_outcome is_space str_datetime iso_datetime
                padded ana (direct no_table) eq_refl) as [Hraised _].
    by rewrite (Hraised (DatabaseError "relation clients does not exist")
                  (insert_client str_datetime iso_datetime "Ana"
                     (Some "Rua 1") None (direct no_table)).2 eq_refl).
  - destruct (create_route_outcome is_space str_datetime iso_datetime
                padded ana (direct three_clients) eq_refl) as [_ Hreturned].
    destruct (Hreturned {[ "id" := VInt 4; "created_at" := VTime 1000 ]}
                with_ana eq_refl) as (i & c & Hi & Hc & Hpost).
    rewrite Hpost. injection Hi as <-. injection Hc as <-. reflexivity.
Defined.






Lemma pool_never_overdrawn_witness :
  get_conn exhausted
    = (inl (PoolError "connection pool exhausted"), exhausted) /\
  pool_sound (get_conn (direct empty_table)).2.
Proof.
  split.
  - destruct (pool_never_overdrawn exhausted) as (_ & _ & Hfull).
    + unfold pool_sound. simpl. lia.
    + apply Hfull; [by eexists|reflexivity].
  - destruct (pool_never_overdrawn (direct empty_table)) as (Hget & _).
    + exact I.
    + apply (Hget (get_conn (direct empty_table)).1). apply surjective_pairing.
Defined.

Lemma direct_insert_all_or_nothing_witness :
  postgres (insert_client str_datetime iso_datetime "Ana" None None
              (direct no_table)).2 = no_table.
Proof.
  apply (direct_insert_all_or_nothing str_datetime iso_datetime
           (direct no_table) "Ana" None None
           (inl (DatabaseError "relation clients does not exist"))
           (insert_client str_datetime iso_datetime "Ana" None None
              (direct no_table)).2);
    reflexivity.
Defined.

Lemma table_check_releases_connection_witness :
  scoped_use "create_clients_table" (direct no_table)
    (create_clients_table iso_datetime (direct no_table)).
Proof.
  apply (table_check_releases_connection iso_datetime (direct no_table)).
  reflexivity.
Defined.

End more_checks.
